(** * pywbem/wbemcli.py: the interactive WBEM shell, embedded in Rocq

    The module [wbemcli] keeps one global connection object [CONN], builds it
    in [_remote_connection] from the command line options, and offers one
    global function per CIM intrinsic operation.  Each of these functions
    calls a method of [CONN].

    The embedding is shallow.  Python values are an inductive type, raised
    exceptions are the [Raise] outcome of a state and error monad, and the
    module global [CONN] lives in the threaded state together with the
    outside world (server, terminal) and a trace of the calls that left the
    module.  The [WBEMConnection] class and [getpass] are not part of this
    source file; they enter through the [External] interface. *)

From Stdlib Require Import ZArith Ascii DecimalString.
From stdpp Require Import base gmap strings list fin_maps.

Local Open Scope string_scope.
Local Open Scope list_scope.

(** ** Python values and exceptions *)

#[local] Set Warnings "-register-all".

Inductive PyVal : Type :=
| VNone
| VBool (b : bool)
| VInt (n : Z)
| VStr (s : string)
| VTuple (items : list PyVal)
| VList (items : list PyVal)
| VObj (cls : string) (attrs : list (string * PyVal)).

(** The exceptions that can travel through this module: the ones the
    interpreter raises itself (argument binding, attribute access on [None],
    indexing an empty string), the error kinds of the connection, and any
    other exception class of a collaborator. *)
Inductive Exn : Type :=
| TypeError (msg : string)
| AttributeError (msg : string)
| IndexError (msg : string)
| TransportError (msg : string)
| CIMError (status_code : Z) (status_description : string)
| ProtocolError (msg : string)
| PyError (cls msg : string).

Inductive Result (A : Type) : Type :=
| Ok (a : A)
| Raise (e : Exn).
Arguments Ok {A} a.
Arguments Raise {A} e.

(** Keyword arguments of a call: a dict from names to values. *)
Abbreviation Kwargs := (gmap string PyVal).

(** A method call on the connection object:
    [CONN.meth( *c_args, **c_kwargs )]. *)
Record Call : Type := MkCall {
  meth : string;
  c_args : list PyVal;
  c_kwargs : Kwargs
}.

(** ** The connection object *)

(** Modelled from the spec: the class [WBEMConnection] is imported from the
    package ([from . import WBEMConnection]) and is not in this file.  The
    spec gives a connection a url, an optional (username, password) pair, a
    default namespace and a debug flag.  [creds] holds the pair exactly as
    [_remote_connection] builds it: each half is the option value as parsed,
    [None] or a string. *)
Record WBEMConnection : Type := MkConn {
  url : string;
  creds : option (option string * option string);
  default_namespace : string;
  debug : bool
}.

(** What leaves the module. *)
Inductive Event : Type :=
| EvCall (c : WBEMConnection) (cl : Call)
| EvGetpass (prompt : string).

(** The collaborators of the module: what a method of a connection does with
    the outside world, and what [getpass.getpass] reads from the terminal.
    Both may raise. *)
Class External (World : Type) : Type := {
  conn_method : WBEMConnection -> Call -> World -> Result PyVal * World;
  getpass_getpass : string -> World -> Result string * World
}.

(** ** Interpreter state and the monad of module code *)

Record State (World : Type) : Type := MkState {
  CONN : option WBEMConnection;
  world : World;
  trace : list Event
}.
Arguments MkState {World} CONN world trace.
Arguments CONN {World} s.
Arguments world {World} s.
Arguments trace {World} s.

Definition M (World A : Type) : Type := State World -> Result A * State World.

Definition ret {World A} (a : A) : M World A := fun st => (Ok a, st).

Definition raise {World A} (e : Exn) : M World A := fun st => (Raise e, st).

(** Sequencing: an exception of the first part ends the whole, since no
    function of this module has a [try] around a connection call. *)
Definition bind {World A B} (m : M World A) (k : A -> M World B) : M World B :=
  fun st =>
    match m st with
    | (Ok a, st') => k a st'
    | (Raise e, st') => (Raise e, st')
    end.

Declare Scope py_scope.
Delimit Scope py_scope with py.
Notation "'let!' x ':=' m 'in' k" := (bind m (fun x => k))
  (at level 10, x name, m at level 100, k at level 200) : py_scope.
Notation "'do!' m 'in' k" := (bind m (fun _ => k))
  (at level 10, m at level 100, k at level 200) : py_scope.
Local Open Scope py_scope.

Definition lift {World A} (r : Result A) : M World A :=
  match r with Ok a => ret a | Raise e => raise e end.

(** ** Calling a Python function: binding arguments to parameters *)

(** A parameter of a [def]: its name and, when it has one, its default. *)
Record Param : Type := MkParam {
  p_name : string;
  p_default : option PyVal
}.

Definition pos (name : string) : Param := MkParam name None.
Definition kwd (name : string) (default : PyVal) : Param :=
  MkParam name (Some default).
Infix "=:" := kwd (at level 30, no associativity) : py_scope.

(** The body of a function of [n] parameters. *)
Fixpoint curried (n : nat) (R : Type) : Type :=
  match n with
  | O => R
  | S n' => PyVal -> curried n' R
  end.

(** Feeds the bound values to the body.  The binder below always hands over
    exactly [n] values, so the filler of [hd] is never read. *)
Fixpoint apply_curried {R : Type} (n : nat) : curried n R -> list PyVal -> R :=
  match n with
  | O => fun r _ => r
  | S n' => fun f vs => apply_curried n' (f (hd VNone vs)) (tl vs)
  end.

(** Binds the named parameters, in order: a positional argument while there
    are some (a keyword of the same name is then a second value for the
    parameter), else the keyword argument of that name, else the default. *)
Fixpoint bind_params (ps : list Param) (args : list PyVal) (kw : Kwargs)
  : Result (list PyVal) :=
  match ps with
  | [] => Ok []
  | p :: ps' =>
      let rest (v : PyVal) (args' : list PyVal) :=
        match bind_params ps' args' kw with
        | Ok vs => Ok (v :: vs)
        | Raise e => Raise e
        end in
      match args with
      | a :: args' =>
          match kw !! p_name p with
          | Some _ => Raise (TypeError "got multiple values for argument")
          | None => rest a args'
          end
      | [] =>
          match kw !! p_name p, p_default p with
          | Some v, _ => rest v []
          | None, Some d => rest d []
          | None, None => Raise (TypeError "missing required argument")
          end
      end
  end.

(** The positional arguments beyond the named parameters, and the keyword
    arguments that name no parameter. *)
Definition extra_args (ps : list Param) (args : list PyVal) : list PyVal :=
  drop (length ps) args.

Definition extra_kwargs (ps : list Param) (kw : Kwargs) : Kwargs :=
  foldr delete kw (p_name <$> ps).

(** The whole of argument binding: the values of the named parameters, then
    what goes to [*params] and [**kwparams].  A [def] without these two
    ([variadic = false]) refuses surplus arguments. *)
Definition bind_arguments (ps : list Param) (variadic : bool)
    (args : list PyVal) (kw : Kwargs)
  : Result (list PyVal * list PyVal * Kwargs) :=
  let extra := extra_args ps args in
  let kwextra := extra_kwargs ps kw in
  if negb variadic && negb (bool_decide (extra = [])) then
    Raise (TypeError "takes fewer positional arguments")
  else if negb variadic && negb (bool_decide (kwextra = ∅)) then
    Raise (TypeError "got an unexpected keyword argument")
  else
    match bind_params ps args kw with
    | Ok vs => Ok (vs, extra, kwextra)
    | Raise e => Raise e
    end.

(** A function object: [def f(p1, ..., pn)] or
    [def f(p1, ..., pn, *params, **kwparams)]. *)
Inductive PyFunction (World : Type) : Type :=
| Def (ps : list Param) (body : curried (length ps) (M World PyVal))
| DefStar (ps : list Param)
    (body : curried (length ps) (list PyVal -> Kwargs -> M World PyVal)).
Arguments Def {World} ps body.
Arguments DefStar {World} ps body.

Definition f_params {World} (f : PyFunction World) : list Param :=
  match f with Def ps _ => ps | DefStar ps _ => ps end.

Definition variadic {World} (f : PyFunction World) : bool :=
  match f with Def _ _ => false | DefStar _ _ => true end.

(** Running the body on the values of its parameters. *)
Definition apply_body {World} (f : PyFunction World) (vs extra : list PyVal)
    (kwextra : Kwargs) : M World PyVal :=
  match f with
  | Def ps body => apply_curried (length ps) body vs
  | DefStar ps body => apply_curried (length ps) body vs extra kwextra
  end.

(** [f( *args, **kw )] *)
Definition call_function {World} (f : PyFunction World)
    (args : list PyVal) (kw : Kwargs) : M World PyVal :=
  let! bound := lift (bind_arguments (f_params f) (variadic f) args kw) in
  apply_body f bound.1.1 bound.1.2 bound.2.

(** ** The module [wbemcli] *)

Section Wbemcli.

Context {World : Type} `{External World}.

Implicit Types (st : State World) (c : WBEMConnection) (cl : Call).

(** [CONN.meth( *args, **kw )]: attribute access on the global, then the
    call.  While [CONN] is still [None] the attribute access fails. *)
Definition CONN_call (m : string) (args : list PyVal) (kw : Kwargs)
  : M World PyVal :=
  fun st =>
    match CONN st with
    | None =>
        (Raise (AttributeError "'NoneType' object has no attribute"), st)
    | Some c =>
        let cl := MkCall m args kw in
        let '(r, w') := conn_method c cl (world st) in
        (r, MkState (Some c) w' (trace st ++ [EvCall c cl]))
    end.

(** *** Setting up the connection *)

(** The parsed command line, as [main] declares it to [argparse]:
    [--port] has [type=int] and default [None], [--no-ssl] is a
    [store_true] flag, [--namespace] defaults to a string, and [--user] and
    [--password] are strings with default [None]. *)
Record Options : Type := MkOptions {
  no_ssl : bool;
  port : option Z;
  user : option string;
  password : option string;
  namespace : string
}.

(** ['%d' % n] *)
Definition format_d (n : Z) : string := NilZero.string_of_int (Z.to_int n).

(** ['%s' % x] for a value that is a string or [None]. *)
Definition format_s (x : option string) : string :=
  match x with Some s => s | None => "None" end.

(** Modelled from the spec: the constructor of [WBEMConnection], which is
    not in this file; it keeps the url, the credentials and the default
    namespace it is given.  A new connection has its debug flag off. *)
Definition WBEMConnection_init (url : string)
    (creds : option (option string * option string))
    (default_namespace : string) : WBEMConnection :=
  MkConn url creds default_namespace false.

(** [_getpass.getpass(prompt)] *)
Definition getpass (prompt : string) : M World string :=
  fun st =>
    let '(r, w') := getpass_getpass prompt (world st) in
    (r, MkState (CONN st) w' (trace st ++ [EvGetpass prompt])).

(** [CONN = c] *)
Definition set_CONN c : M World unit :=
  fun st => (Ok tt, MkState (Some c) (world st) (trace st)).

(** Reading the global [CONN] for an attribute access. *)
Definition get_CONN : M World WBEMConnection :=
  fun st =>
    match CONN st with
    | Some c => (Ok c, st)
    | None =>
        (Raise (AttributeError "'NoneType' object has no attribute"), st)
    end.

(** [CONN.debug = b] *)
Definition CONN_set_debug (b : bool) : M World unit :=
  fun st =>
    match CONN st with
    | Some c =>
        (Ok tt,
         MkState (Some (MkConn (url c) (creds c) (default_namespace c) b))
           (world st) (trace st))
    | None =>
        (Raise (AttributeError "'NoneType' object has no attribute"), st)
    end.

(** The url part of [_remote_connection]; [server[0]] fails on the empty
    string. *)
Definition connection_url (server : string) (opts : Options) : Result string :=
  match server with
  | EmptyString => Raise (IndexError "string index out of range")
  | String ch _ =>
      if Ascii.eqb ch "/"%char then Ok server
      else
        let proto := "https" in
        let proto := if no_ssl opts then "http" else proto in
        let url := proto +:+ "://" +:+ server in
        let url :=
          match port opts with
          | Some p => url +:+ ":" +:+ format_d p
          | None => url
          end in
        Ok url
  end.

(** ['Enter password for %s: ' % opts.user] *)
Definition password_prompt (u : string) : string :=
  "Enter password for " +:+ u +:+ ": ".

(** Besides the connection, which is also left in [CONN], the result holds
    [opts] as the function leaves it: the prompt stores the password in the
    caller's object. *)
Definition _remote_connection (server : string) (opts : Options)
  : M World (WBEMConnection * Options) :=
  let! url := lift (connection_url server opts) in
  let creds := None in
  let! opts :=
    match user opts, password opts with
    | Some u, None =>
        let! pw := getpass (password_prompt u) in
        ret (MkOptions (no_ssl opts) (port opts) (user opts) (Some pw)
               (namespace opts))
    | _, _ => ret opts
    end in
  let creds :=
    match user opts, password opts with
    | None, None => creds
    | _, _ => Some (user opts, password opts)
    end in
  do! set_CONN (WBEMConnection_init url creds (namespace opts)) in
  do! CONN_set_debug true in
  let! conn := get_CONN in
  ret (conn, opts).

(** The text about the connection that the banner and [h()] print. *)
Definition _get_connection_info : M World string :=
  let! conn := get_CONN in
  let info := "Connected to " +:+ url conn in
  let info :=
    match creds conn with
    | Some cr => info +:+ " as " +:+ format_s (fst cr)
    | None => info +:+ " without credentials"
    end in
  let info := info +:+ ", default namespace " +:+ default_namespace conn in
  ret info.

(** *** The banner and the history file *)

(** The line feed of the Python literals. *)
Definition newline : string := String "010"%char EmptyString.

(** The banner of the console.  [_sys.version] belongs to the interpreter
    and is taken as the argument [version]. *)
Definition _get_banner (version : string) : M World string :=
  let result := "" in
  let result := result +:+ (newline +:+ "Python " +:+ version) in
  let result :=
    result +:+ (newline +:+ newline +:+ "Wbemcli interactive shell") in
  let! info := _get_connection_info in
  let result := result +:+ (newline +:+ info) in
  let result := result +:+ (newline +:+ "Press Ctrl-D to exit") in
  let result := result +:+ (newline +:+ "Type h() for help") in
  ret result.

(** The path of the history file as [main] computes it from
    [_os.environ]. *)
Definition history_file (environ : gmap string string) : string :=
  let home_dir := "." in
  let home_dir :=
    match environ !! "HOME" with
    | Some home => home
    | None =>
        match environ !! "HOMEPATH" with
        | Some homepath => homepath
        | None => home_dir
        end
    end in
  home_dir +:+ "/.wbemcli_history".

(** The way of [main] to the connection, once the command line is parsed:
    without a server name ([None], or the empty string) [argparser.error]
    ends the program with exit status 2, else the connection is set up. *)
Definition main_connect (server : option string) (opts : Options)
  : M World (WBEMConnection * Options) :=
  match server with
  | None | Some EmptyString => raise (PyError "SystemExit" "2")
  | Some name => _remote_connection name opts
  end.

(** *** Global functions, one per operation *)

Definition EnumerateInstanceNames : PyFunction World :=
  Def [pos "cn"; "ns" =: VNone]
    (fun cn ns =>
       CONN_call "EnumerateInstanceNames" [cn; ns] ∅).

Definition EnumerateInstances : PyFunction World :=
  Def [pos "cn"; "ns" =: VNone; "lo" =: VNone; "di" =: VNone;
       "iq" =: VNone; "ico" =: VNone; "pl" =: VNone]
    (fun cn ns lo di iq ico pl =>
       CONN_call "EnumerateInstances" [cn; ns]
         {[ "LocalOnly" := lo;
            "DeepInheritance" := di;
            "IncludeQualifiers" := iq;
            "IncludeClassOrigin" := ico;
            "PropertyList" := pl ]}).

Definition GetInstance : PyFunction World :=
  Def [pos "ip"; "lo" =: VNone; "iq" =: VNone; "ico" =: VNone;
       "pl" =: VNone]
    (fun ip lo iq ico pl =>
       CONN_call "GetInstance" [ip]
         {[ "LocalOnly" := lo;
            "IncludeQualifiers" := iq;
            "IncludeClassOrigin" := ico;
            "PropertyList" := pl ]}).

Definition ModifyInstance : PyFunction World :=
  Def [pos "mi"; "iq" =: VNone; "pl" =: VNone]
    (fun mi iq pl =>
       do! CONN_call "ModifyInstance" [mi]
             {[ "IncludeQualifiers" := iq;
                "PropertyList" := pl ]} in
       ret VNone).

Definition CreateInstance : PyFunction World :=
  Def [pos "ni"]
    (fun ni => CONN_call "CreateInstance" [ni] ∅).

Definition DeleteInstance : PyFunction World :=
  Def [pos "ip"]
    (fun ip => do! CONN_call "DeleteInstance" [ip] ∅ in ret VNone).

Definition AssociatorNames : PyFunction World :=
  Def [pos "op"; "ac" =: VNone; "rc" =: VNone; "r" =: VNone; "rr" =: VNone]
    (fun op ac rc r rr =>
       CONN_call "AssociatorNames" [op]
         {[ "AssocClass" := ac;
            "ResultClass" := rc;
            "Role" := r;
            "ResultRole" := rr ]}).

Definition Associators : PyFunction World :=
  Def [pos "op"; "ac" =: VNone; "rc" =: VNone; "r" =: VNone; "rr" =: VNone;
       "iq" =: VNone; "ico" =: VNone; "pl" =: VNone]
    (fun op ac rc r rr iq ico pl =>
       CONN_call "Associators" [op]
         {[ "AssocClass" := ac;
            "ResultClass" := rc;
            "Role" := r;
            "ResultRole" := rr;
            "IncludeQualifiers" := iq;
            "IncludeClassOrigin" := ico;
            "PropertyList" := pl ]}).

Definition ReferenceNames : PyFunction World :=
  Def [pos "op"; "rc" =: VNone; "r" =: VNone]
    (fun op rc r =>
       CONN_call "ReferenceNames" [op]
         {[ "ResultClass" := rc;
            "Role" := r ]}).

Definition References : PyFunction World :=
  Def [pos "op"; "rc" =: VNone; "r" =: VNone; "iq" =: VNone; "ico" =: VNone;
       "pl" =: VNone]
    (fun op rc r iq ico pl =>
       CONN_call "References" [op]
         {[ "ResultClass" := rc;
            "Role" := r;
            "IncludeQualifiers" := iq;
            "IncludeClassOrigin" := ico;
            "PropertyList" := pl ]}).

Definition InvokeMethod : PyFunction World :=
  DefStar [pos "mn"; pos "op"]
    (fun mn op params kwparams =>
       CONN_call "InvokeMethod" ([mn; op] ++ params) kwparams).

Definition EnumerateClassNames : PyFunction World :=
  Def ["ns" =: VNone; "cn" =: VNone; "di" =: VNone]
    (fun ns cn di =>
       CONN_call "EnumerateClassNames" [ns]
         {[ "ClassName" := ns;
            "DeepInheritance" := di ]}).

Definition EnumerateClasses : PyFunction World :=
  Def ["ns" =: VNone; "cn" =: VNone; "di" =: VNone; "lo" =: VNone;
       "iq" =: VNone; "ico" =: VNone]
    (fun ns cn di lo iq ico =>
       CONN_call "EnumerateClassNames" [ns]
         {[ "ClassName" := cn;
            "DeepInheritance" := di;
            "LocalOnly" := lo;
            "IncludeQualifiers" := iq;
            "IncludeClassOrigin" := ico ]}).

Definition GetClass : PyFunction World :=
  Def [pos "cn"; "ns" =: VNone; "lo" =: VNone; "iq" =: VNone; "ico" =: VNone;
       "pl" =: VNone]
    (fun cn ns lo iq ico pl =>
       CONN_call "GetClass" [cn; ns]
         {[ "LocalOnly" := lo;
            "IncludeQualifiers" := iq;
            "IncludeClassOrigin" := ico;
            "PropertyList" := pl ]}).

Definition ModifyClass : PyFunction World :=
  Def [pos "mc"; "ns" =: VNone]
    (fun mc ns => CONN_call "ModifyClass" [mc; ns] ∅).

Definition CreateClass : PyFunction World :=
  Def [pos "nc"; "ns" =: VNone]
    (fun nc ns => do! CONN_call "CreateClass" [nc; ns] ∅ in ret VNone).

Definition DeleteClass : PyFunction World :=
  Def [pos "cn"; "ns" =: VNone]
    (fun cn ns => do! CONN_call "DeleteClass" [cn; ns] ∅ in ret VNone).

Definition EnumerateQualifiers : PyFunction World :=
  Def ["ns" =: VNone]
    (fun ns => CONN_call "EnumerateQualifiers" [ns] ∅).

Definition GetQualifier : PyFunction World :=
  Def [pos "qn"; "ns" =: VNone]
    (fun qn ns => CONN_call "GetQualifier" [qn; ns] ∅).

Definition SetQualifier : PyFunction World :=
  Def [pos "qd"; "ns" =: VNone]
    (fun qd ns => do! CONN_call "SetQualifier" [qd; ns] ∅ in ret VNone).

Definition DeleteQualifier : PyFunction World :=
  Def [pos "qn"; "ns" =: VNone]
    (fun qn ns => do! CONN_call "DeleteQualifier" [qn; ns] ∅ in ret VNone).

(** The operation functions under their long names, in source order. *)
Definition operations : list (string * PyFunction World) :=
  [ ("EnumerateInstanceNames", EnumerateInstanceNames);
    ("EnumerateInstances", EnumerateInstances);
    ("GetInstance", GetInstance);
    ("ModifyInstance", ModifyInstance);
    ("CreateInstance", CreateInstance);
    ("DeleteInstance", DeleteInstance);
    ("AssociatorNames", AssociatorNames);
    ("Associators", Associators);
    ("ReferenceNames", ReferenceNames);
    ("References", References);
    ("InvokeMethod", InvokeMethod);
    ("EnumerateClassNames", EnumerateClassNames);
    ("EnumerateClasses", EnumerateClasses);
    ("GetClass", GetClass);
    ("ModifyClass", ModifyClass);
    ("CreateClass", CreateClass);
    ("DeleteClass", DeleteClass);
    ("EnumerateQualifiers", EnumerateQualifiers);
    ("GetQualifier", GetQualifier);
    ("SetQualifier", SetQualifier);
    ("DeleteQualifier", DeleteQualifier) ].

(** *** The module namespace and the aliases *)

(** The top-level statements that bind operation names: a [def], or an
    assignment [target = source] of one global name to another. *)
Inductive TopLevel : Type :=
| SDef (name : string) (f : PyFunction World)
| SAssign (target source : string).

(** Executing one statement.  The right-hand side of an assignment is looked
    up when the statement runs; an unbound name stops the module load. *)
Definition exec_toplevel (g : option (gmap string (PyFunction World)))
    (s : TopLevel) : option (gmap string (PyFunction World)) :=
  match g with
  | None => None
  | Some ns =>
      match s with
      | SDef name f => Some (<[name := f]> ns)
      | SAssign target source =>
          match ns !! source with
          | Some f => Some (<[target := f]> ns)
          | None => None
          end
      end
  end.

Definition module_body : list TopLevel :=
  (uncurry SDef <$> operations) ++
  [ SAssign "ein" "EnumerateInstanceNames";
    SAssign "ei" "EnumerateInstances";
    SAssign "gi" "GetInstance";
    SAssign "mi" "ModifyInstance";
    SAssign "ci" "CreateInstance";
    SAssign "di" "DeleteInstance";
    SAssign "an" "AssociatorNames";
    SAssign "a" "Associators";
    SAssign "rn" "ReferenceNames";
    SAssign "r" "References";
    SAssign "im" "InvokeMethod";
    SAssign "ecn" "EnumerateClassNames";
    SAssign "ec" "EnumerateClasses";
    SAssign "gc" "GetClass";
    SAssign "mc" "ModifyClass";
    SAssign "cc" "CreateClass";
    SAssign "dc" "DeleteClass";
    SAssign "eq" "EnumerateQualifiers";
    SAssign "gq" "GetQualifier";
    SAssign "sq" "SetQualifier";
    SAssign "dq" "DeleteQualifier" ].

Definition module_namespace : option (gmap string (PyFunction World)) :=
  foldl exec_toplevel (Some ∅) module_body.

(** [name( *args, **kw )] typed at the prompt of the shell. *)
Definition call_global (name : string) (args : list PyVal) (kw : Kwargs)
  : M World PyVal :=
  match module_namespace with
  | Some ns =>
      match ns !! name with
      | Some f => call_function f args kw
      | None => raise (PyError "NameError" name)
      end
  | None => raise (PyError "NameError" name)
  end.

(** *** The pass-through contract, in the words of the spec *)

(** Where a parameter of a global function goes in the call of the
    connection method: to the next positional place, or to a keyword. *)
Inductive Target : Type :=
| ToPositional
| ToKeyword (name : string).

Fixpoint positional (route : list Target) (vs : list PyVal) : list PyVal :=
  match route, vs with
  | ToPositional :: route', v :: vs' => v :: positional route' vs'
  | ToKeyword _ :: route', _ :: vs' => positional route' vs'
  | _, _ => []
  end.

Fixpoint keywords (route : list Target) (vs : list PyVal) : Kwargs :=
  match route, vs with
  | ToPositional :: route', _ :: vs' => keywords route' vs'
  | ToKeyword k :: route', v :: vs' => <[k := v]> (keywords route' vs')
  | _, _ => ∅
  end.

(** The method calls in a trace, oldest first. *)
Definition requests (t : list Event) : list Call :=
  omap (fun ev => match ev with EvCall _ cl => Some cl | _ => None end) t.

(** The contract of the spec for the global function [name] with parameters
    [ps]: bind the caller's arguments, invoke the method [name] of [CONN]
    with every value unchanged at the place [route] gives its parameter
    (surplus arguments of a variadic function go along as they are), and
    yield what the method yields. *)
Definition pass_through_spec (name : string) (ps : list Param)
    (variadic : bool) (route : list Target)
    (args : list PyVal) (kw : Kwargs) : M World PyVal :=
  let! bound := lift (bind_arguments ps variadic args kw) in
  CONN_call name
    (positional route bound.1.1 ++ bound.1.2)
    (keywords route bound.1.1 ∪ bound.2).

(** The place of each parameter as the docstrings describe the parameters
    (class name, namespace, LocalOnly flag, ResultClass filter, ...), in the
    order of the [def]; the keywords are the option names of the connection
    methods. *)
Definition documented_route : list (string * list Target) :=
  let P := ToPositional in
  let K := ToKeyword in
  [ ("EnumerateInstanceNames", [P; P]);
    ("EnumerateInstances",
       [P; P; K "LocalOnly"; K "DeepInheritance"; K "IncludeQualifiers";
        K "IncludeClassOrigin"; K "PropertyList"]);
    ("GetInstance",
       [P; K "LocalOnly"; K "IncludeQualifiers"; K "IncludeClassOrigin";
        K "PropertyList"]);
    ("ModifyInstance", [P; K "IncludeQualifiers"; K "PropertyList"]);
    ("CreateInstance", [P]);
    ("DeleteInstance", [P]);
    ("AssociatorNames",
       [P; K "AssocClass"; K "ResultClass"; K "Role"; K "ResultRole"]);
    ("Associators",
       [P; K "AssocClass"; K "ResultClass"; K "Role"; K "ResultRole";
        K "IncludeQualifiers"; K "IncludeClassOrigin"; K "PropertyList"]);
    ("ReferenceNames", [P; K "ResultClass"; K "Role"]);
    ("References",
       [P; K "ResultClass"; K "Role"; K "IncludeQualifiers";
        K "IncludeClassOrigin"; K "PropertyList"]);
    ("InvokeMethod", [P; P]);
    ("EnumerateClassNames", [P; K "ClassName"; K "DeepInheritance"]);
    ("EnumerateClasses",
       [P; K "ClassName"; K "DeepInheritance"; K "LocalOnly";
        K "IncludeQualifiers"; K "IncludeClassOrigin"]);
    ("GetClass",
       [P; P; K "LocalOnly"; K "IncludeQualifiers"; K "IncludeClassOrigin";
        K "PropertyList"]);
    ("ModifyClass", [P; P]);
    ("CreateClass", [P; P]);
    ("DeleteClass", [P; P]);
    ("EnumerateQualifiers", [P]);
    ("GetQualifier", [P; P]);
    ("SetQualifier", [P; P]);
    ("DeleteQualifier", [P; P]) ].

(** How many positional places come before the [i]-th parameter. *)
Fixpoint positional_index (route : list Target) (i : nat) : nat :=
  match route, i with
  | ToPositional :: route', S i' => S (positional_index route' i')
  | ToKeyword _ :: route', S i' => positional_index route' i'
  | _, _ => 0
  end.

(** What a method call carries at the place of the [i]-th parameter. *)
Definition place (route : list Target) (i : nat) (cl : Call) : option PyVal :=
  match route !! i with
  | Some (ToKeyword k) => c_kwargs cl !! k
  | Some ToPositional => c_args cl !! positional_index route i
  | None => None
  end.

(** The functions whose body is a bare call statement, without [return]. *)
Definition returns_nothing : list string :=
  [ "ModifyInstance"; "DeleteInstance"; "CreateClass"; "DeleteClass";
    "SetQualifier"; "DeleteQualifier" ].

(** What such a body does with the outcome of the method, compared with a
    body that returns it. *)
Definition finish (name : string) (m : M World PyVal) : M World PyVal :=
  if bool_decide (name ∈ returns_nothing) then do! m in ret VNone else m.

(** The short names with their long names, as [h()] lists them. *)
Definition alias_table : list (string * string) :=
  [ ("ein", "EnumerateInstanceNames");
    ("ei", "EnumerateInstances");
    ("gi", "GetInstance");
    ("mi", "ModifyInstance");
    ("ci", "CreateInstance");
    ("di", "DeleteInstance");
    ("an", "AssociatorNames");
    ("a", "Associators");
    ("rn", "ReferenceNames");
    ("r", "References");
    ("im", "InvokeMethod");
    ("ecn", "EnumerateClassNames");
    ("ec", "EnumerateClasses");
    ("gc", "GetClass");
    ("mc", "ModifyClass");
    ("cc", "CreateClass");
    ("dc", "DeleteClass");
    ("eq", "EnumerateQualifiers");
    ("gq", "GetQualifier");
    ("sq", "SetQualifier");
    ("dq", "DeleteQualifier") ].

End Wbemcli.

(** ** A small concrete world

    A server that answers every call with a tuple of the method name and the
    positional arguments it received, except that it refuses [DeleteClass]
    with a CIM error and is unreachable for [GetQualifier]; the world counts
    the interactions.  The terminal types the password [penny42]. *)
Module Demo.

Definition server (c : WBEMConnection) (cl : Call) (n : nat)
  : Result PyVal * nat :=
  if String.eqb (meth cl) "DeleteClass" then
    (Raise (CIMError 5 "CIM_ERR_INVALID_CLASS"), S n)
  else if String.eqb (meth cl) "GetQualifier" then
    (Raise (TransportError "connection refused"), S n)
  else (Ok (VTuple (VStr (meth cl) :: c_args cl)), S n).

Definition terminal (prompt : string) (n : nat) : Result string * nat :=
  (Ok "penny42", S n).

#[global] Instance external : External nat :=
  {| conn_method := server; getpass_getpass := terminal |}.

(** The same server behind a terminal that is closed: the prompt ends with
    [EOFError]. *)
Definition closed_terminal (prompt : string) (n : nat)
  : Result string * nat :=
  (Raise (PyError "EOFError" "EOF when reading a line"), S n).

Definition external_closed : External nat :=
  {| conn_method := server; getpass_getpass := closed_terminal |}.

Definition sheldon : WBEMConnection :=
  MkConn "https://localhost:15989" (Some (Some "sheldon", Some "penny42"))
    "root/cimv2" true.

Definition connected : State nat := MkState (Some sheldon) 0 [].

Definition unconnected : State nat := MkState None 0 [].

Definition opts_default : Options :=
  MkOptions false None None None "root/cimv2".

(** [wbemcli localhost --port 15989 -n root/cimv2 -u sheldon], the example
    of the usage text without its password. *)
Definition opts_sheldon : Options :=
  MkOptions false (Some 15989%Z) (Some "sheldon") None "root/cimv2".

End Demo.

(** ** Proof steps for literal lists *)

(** Splits a membership in a literal list into its cases. *)
Ltac each_member Hin :=
  repeat (apply elem_of_cons in Hin as [Hin|Hin]);
  [ .. | by apply elem_of_nil in Hin ].

(** Names the values of a parameter list of known length. *)
Ltac name_values vs Hlen :=
  repeat (destruct vs as [|? vs]; [discriminate Hlen|]);
  destruct vs; [clear Hlen|discriminate Hlen].

(** Splits a lookup in a literal list into the cases of the index. *)
Ltac each_index i Hp :=
  simpl in Hp;
  first [ discriminate Hp | destruct i as [|i]; [ | each_index i Hp ] ].


(** ** Strings *)

Lemma append_assoc (s1 s2 s3 : string) :
  (s1 +:+ s2) +:+ s3 = s1 +:+ (s2 +:+ s3).
Proof.
  induction s1 as [|ch s1 IH]; [reflexivity|].
  change (String ch ((s1 +:+ s2) +:+ s3) = String ch (s1 +:+ s2 +:+ s3)).
  by rewrite IH.
Qed.

Lemma append_nil_r (s : string) : s +:+ "" = s.
Proof.
  induction s as [|ch s IH]; [reflexivity|].
  change (String ch (s +:+ "") = String ch s). by rewrite IH.
Qed.

(** ** Argument binding *)

Lemma bind_params_length ps args kw vs :
  bind_params ps args kw = Ok vs → length vs = length ps.
Proof.
  revert args vs.
  induction ps as [|p ps IH]; intros args vs Hb; simpl in Hb.
  - by inversion Hb.
  - destruct args as [|a args'].
    + destruct (kw !! p_name p) as [v|]; [|destruct (p_default p) as [d|]];
        try discriminate;
        destruct (bind_params ps [] kw) as [vs'|] eqn:Hrec; try discriminate;
        inversion Hb; subst; simpl; f_equal; eauto.
    + destruct (kw !! p_name p); try discriminate.
      destruct (bind_params ps args' kw) as [vs'|] eqn:Hrec; try discriminate.
      inversion Hb; subst; simpl; f_equal; eauto.
Qed.

(** Where the value of the [i]-th parameter comes from. *)
Lemma bind_params_lookup ps args kw vs i p :
  bind_params ps args kw = Ok vs →
  ps !! i = Some p →
  vs !! i =
    match args !! i with
    | Some a => Some a
    | None =>
        match kw !! p_name p with
        | Some v => Some v
        | None => p_default p
        end
    end.
Proof.
  revert args vs i.
  induction ps as [|q ps IH]; intros args vs i Hb Hp; [done|].
  simpl in Hb. destruct args as [|a args'].
  - destruct (bind_params ps [] kw) as [vs'|] eqn:Hrec.
    + assert (∃ v, vs = v :: vs' ∧
                (i = 0 → Some v = match kw !! p_name q with
                                  | Some v => Some v
                                  | None => p_default q
                                  end)) as (v & -> & Hv).
      { destruct (kw !! p_name q) as [v|]; [|destruct (p_default q) as [d|]];
          try discriminate; inversion Hb; subst; eauto. }
      destruct i as [|i]; simpl in *.
      * inversion Hp; subst. by rewrite <- Hv.
      * rewrite (IH [] vs' i Hrec Hp). done.
    + destruct (kw !! p_name q); [|destruct (p_default q)]; discriminate.
  - destruct (kw !! p_name q) eqn:Hkw; try discriminate.
    destruct (bind_params ps args' kw) as [vs'|] eqn:Hrec; try discriminate.
    inversion Hb; subst.
    destruct i as [|i]; simpl in *; [done|].
    by rewrite (IH args' vs' i Hrec Hp).
Qed.

Lemma bind_arguments_Ok ps va args kw vs extra kwextra :
  bind_arguments ps va args kw = Ok (vs, extra, kwextra) →
  bind_params ps args kw = Ok vs ∧
  length vs = length ps ∧
  extra = extra_args ps args ∧
  kwextra = extra_kwargs ps kw ∧
  (va = false → extra = [] ∧ kwextra = ∅).
Proof.
  unfold bind_arguments. intros Hb.
  destruct (negb va && negb (bool_decide (extra_args ps args = []))) eqn:H1;
    [discriminate|].
  destruct (negb va && negb (bool_decide (extra_kwargs ps kw = ∅))) eqn:H2;
    [discriminate|].
  destruct (bind_params ps args kw) as [vs'|] eqn:Hp; [|discriminate].
  inversion Hb; subst. repeat split; eauto using bind_params_length.
  - destruct va; [done|]. simpl in H1.
    apply negb_false_iff, bool_decide_eq_true in H1. done.
  - destruct va; [done|]. simpl in H2.
    apply negb_false_iff, bool_decide_eq_true in H2. done.
Qed.

Section Calls.

Context {World : Type} `{External World}.

Implicit Types (st : State World) (c : WBEMConnection) (cl : Call).
Implicit Types (f : PyFunction World).

Lemma call_function_bound f args kw vs extra kwextra st :
  bind_arguments (f_params f) (variadic f) args kw = Ok (vs, extra, kwextra) →
  call_function f args kw st = apply_body f vs extra kwextra st.
Proof. intros Hb. unfold call_function, bind. by rewrite Hb. Qed.

Lemma call_function_unbound f args kw e st :
  bind_arguments (f_params f) (variadic f) args kw = Raise e →
  call_function f args kw st = (Raise e, st).
Proof. intros Hb. unfold call_function, bind. by rewrite Hb. Qed.

(** One method call: the outcome is the method's, the world moves on as the
    method left it, and the trace gains this one call. *)
Lemma CONN_call_run m args kw st c :
  CONN st = Some c →
  CONN_call m args kw st =
    ((conn_method c (MkCall m args kw) (world st)).1,
     MkState (Some c) (conn_method c (MkCall m args kw) (world st)).2
       (trace st ++ [EvCall c (MkCall m args kw)])).
Proof.
  intros Hc. unfold CONN_call. rewrite Hc.
  by destruct (conn_method c (MkCall m args kw) (world st)).
Qed.

Lemma CONN_call_None m args kw st :
  CONN st = None →
  CONN_call m args kw st =
    (Raise (AttributeError "'NoneType' object has no attribute"), st).
Proof. intros Hc. unfold CONN_call. by rewrite Hc. Qed.

End Calls.

(** ** The operation functions, one by one *)

Section Operations.

Context {World : Type} `{External World}.

Implicit Types (st : State World) (c : WBEMConnection) (cl : Call).
Implicit Types (f : PyFunction World).

(** Every operation function makes one call of a method of [CONN], and either
    hands its result on or, in the functions without [return], drops it. *)
Lemma operation_body name f vs extra kwextra :
  (name, f) ∈ operations →
  length vs = length (f_params f) →
  ∃ cl, ∀ st,
    apply_body f vs extra kwextra st =
    finish name (CONN_call (meth cl) (c_args cl) (c_kwargs cl)) st.
Proof.
  intros Hin Hlen.
  each_member Hin; injection Hin as -> ->; simpl in Hlen;
    name_values vs Hlen;
    (eexists (MkCall _ _ _); intros st; reflexivity).
Qed.

(** A call whose arguments bind runs, under a connection, as one method
    call followed by [finish]. *)
Lemma call_function_run name f args kw vs extra kwextra st c :
  (name, f) ∈ operations →
  CONN st = Some c →
  bind_arguments (f_params f) (variadic f) args kw = Ok (vs, extra, kwextra) →
  ∃ cl,
    call_function f args kw st =
      (match (conn_method c cl (world st)).1 with
       | Ok v => Ok (if bool_decide (name ∈ returns_nothing) then VNone else v)
       | Raise e => Raise e
       end,
       MkState (Some c) (conn_method c cl (world st)).2
         (trace st ++ [EvCall c cl])).
Proof.
  intros Hin Hc Hb.
  destruct (bind_arguments_Ok _ _ _ _ _ _ _ Hb) as (_ & Hlen & _).
  destruct (operation_body name f vs extra kwextra Hin Hlen) as [cl Hbody].
  exists cl. rewrite (call_function_bound _ _ _ _ _ _ _ Hb), Hbody.
  destruct cl as [m a k]. unfold finish. simpl.
  case_bool_decide; unfold bind; rewrite (CONN_call_run _ _ _ _ _ Hc);
    by destruct (conn_method c (MkCall m a k) (world st)) as [[v|e] w].
Qed.

(** C10: [ModifyInstance], [DeleteInstance], [CreateClass], [DeleteClass],
    [SetQualifier] and [DeleteQualifier] drop what the connection method
    returns and return [None] themselves when the method succeeds; every
    other operation function, [ModifyClass] among them, returns the result of
    the method it calls. *)
Theorem return_value_of_operation name f args kw vs extra kwextra st c :
  (name, f) ∈ operations →
  CONN st = Some c →
  bind_arguments (f_params f) (variadic f) args kw = Ok (vs, extra, kwextra) →
  ∃ cl,
    trace (call_function f args kw st).2 = trace st ++ [EvCall c cl] ∧
    ∀ v, (conn_method c cl (world st)).1 = Ok v →
      (call_function f args kw st).1 =
        Ok (if bool_decide
                 (name ∈ ["ModifyInstance"; "DeleteInstance"; "CreateClass";
                          "DeleteClass"; "SetQualifier"; "DeleteQualifier"])
            then VNone else v).
Proof.
  intros Hin Hc Hb.
  destruct (call_function_run _ _ _ _ _ _ _ _ _ Hin Hc Hb) as [cl Hrun].
  exists cl. rewrite Hrun. split; [done|].
  intros v Hv. simpl. by rewrite Hv.
Qed.

(** C6: an error that the connection method raises comes out of the
    operation function as it is, and no result with it.  The method has then
    been called once: the trace has grown by this one call and the world is
    as the method left it, whatever was called before. *)
Theorem error_of_method_propagates name f args kw vs extra kwextra st c :
  (name, f) ∈ operations →
  CONN st = Some c →
  bind_arguments (f_params f) (variadic f) args kw = Ok (vs, extra, kwextra) →
  ∃ cl,
    (call_function f args kw st).2 =
      MkState (Some c) (conn_method c cl (world st)).2
        (trace st ++ [EvCall c cl]) ∧
    ∀ e, (conn_method c cl (world st)).1 = Raise e →
      (call_function f args kw st).1 = Raise e.
Proof.
  intros Hin Hc Hb.
  destruct (call_function_run _ _ _ _ _ _ _ _ _ Hin Hc Hb) as [cl Hrun].
  exists cl. rewrite Hrun. split; [done|].
  intros e He. simpl. by rewrite He.
Qed.

(** C2: [EnumerateClassNames(ns=ns, cn=None, di=None)] calls the method with
    the namespace in both places: the [ClassName] that reaches the connection
    is [ns], not the [cn] of the caller, while [DeepInheritance] stays
    [None]. *)
Theorem EnumerateClassNames_ClassName_is_ns ns st :
  ∃ cl,
    call_function EnumerateClassNames []
      {[ "ns" := ns; "cn" := VNone; "di" := VNone ]} st =
      CONN_call (meth cl) (c_args cl) (c_kwargs cl) st ∧
    meth cl = "EnumerateClassNames" ∧
    c_args cl = [ns] ∧
    c_kwargs cl !! "ClassName" = Some ns ∧
    c_kwargs cl !! "DeepInheritance" = Some VNone.
Proof.
  exists (MkCall "EnumerateClassNames" [ns]
            {[ "ClassName" := ns; "DeepInheritance" := VNone ]}).
  repeat split; reflexivity.
Qed.

(** C3: whatever the arguments, [EnumerateClasses] calls the method
    [EnumerateClassNames] of the connection, with the five options as
    keywords, and returns the outcome of that method; the method
    [EnumerateClasses] is not called. *)
Theorem EnumerateClasses_calls_EnumerateClassNames
    args kw vs extra kwextra st c :
  CONN st = Some c →
  bind_arguments (f_params EnumerateClasses) false args kw
    = Ok (vs, extra, kwextra) →
  ∃ ns cn di lo iq ico,
    vs = [ns; cn; di; lo; iq; ico] ∧
    let cl := MkCall "EnumerateClassNames" [ns]
                {[ "ClassName" := cn; "DeepInheritance" := di;
                   "LocalOnly" := lo; "IncludeQualifiers" := iq;
                   "IncludeClassOrigin" := ico ]} in
    call_function EnumerateClasses args kw st =
      ((conn_method c cl (world st)).1,
       MkState (Some c) (conn_method c cl (world st)).2
         (trace st ++ [EvCall c cl])).
Proof.
  intros Hc Hb.
  destruct (bind_arguments_Ok _ _ _ _ _ _ _ Hb) as (_ & Hlen & _).
  simpl in Hlen. name_values vs Hlen.
  do 6 eexists. split; [reflexivity|]. simpl.
  rewrite (call_function_bound EnumerateClasses _ _ _ _ _ _ Hb).
  apply (CONN_call_run _ _ _ _ _ Hc).
Qed.

(** [EnumerateClassNames(ns)]: the caller leaves [cn] and [di] unset;
    [DeepInheritance] reaches the connection as [None], and [ClassName]
    reaches it as the namespace. *)
Theorem EnumerateClassNames_unset_cn ns st :
  call_function EnumerateClassNames [ns] ∅ st =
    CONN_call "EnumerateClassNames" [ns]
      {[ "ClassName" := ns; "DeepInheritance" := VNone ]} st.
Proof. reflexivity. Qed.

(** The two sides of the pass-through comparison after argument binding. *)
Lemma pass_through_spec_bound name ps va route args kw vs extra kwextra st :
  bind_arguments ps va args kw = Ok (vs, extra, kwextra) →
  pass_through_spec name ps va route args kw st =
    CONN_call name (positional route vs ++ extra)
      (keywords route vs ∪ kwextra) st.
Proof. intros Hb. unfold pass_through_spec, bind. by rewrite Hb. Qed.

Lemma finish_unbound name ps va route args kw e st :
  bind_arguments ps va args kw = Raise e →
  finish name (pass_through_spec name ps va route args kw) st = (Raise e, st).
Proof.
  intros Hb. unfold finish, pass_through_spec, bind.
  case_bool_decide; by rewrite Hb.
Qed.

(** C1, as the code has it: apart from [EnumerateClassNames] and
    [EnumerateClasses], every operation function binds its arguments, calls
    the method of [CONN] that has its own name with each value unchanged at
    its documented place, and returns what the method returns, except that
    the six functions without [return] give [None] in place of the result. *)
Theorem operations_pass_through name f route args kw st :
  (name, f) ∈ operations →
  (name, route) ∈ documented_route →
  name ≠ "EnumerateClassNames" →
  name ≠ "EnumerateClasses" →
  call_function f args kw st =
    finish name
      (pass_through_spec name (f_params f) (variadic f) route args kw) st.
Proof.
  intros Hin Hroute Hecn Hec.
  destruct (bind_arguments (f_params f) (variadic f) args kw)
    as [[[vs extra] kwextra]|e] eqn:Hb.
  2: { by rewrite (call_function_unbound _ _ _ _ _ Hb),
               (finish_unbound _ _ _ _ _ _ _ _ Hb). }
  rewrite (call_function_bound _ _ _ _ _ _ _ Hb).
  destruct (bind_arguments_Ok _ _ _ _ _ _ _ Hb) as (_ & Hlen & _ & _ & Hfix).
  assert (finish name
            (pass_through_spec name (f_params f) (variadic f) route args kw)
            st =
          finish name
            (CONN_call name (positional route vs ++ extra)
               (keywords route vs ∪ kwextra)) st) as ->.
  { unfold finish, bind. case_bool_decide;
      by rewrite (pass_through_spec_bound _ _ _ _ _ _ _ _ _ _ Hb). }
  each_member Hin; injection Hin as -> ->; try done;
    (each_member Hroute; try discriminate Hroute; injection Hroute as ->);
    clear Hecn Hec; simpl in Hlen; name_values vs Hlen;
    try (destruct Hfix as [-> ->]; [done|]);
    simpl; rewrite ?(right_id_L ∅ (∪)), ?(left_id_L ∅ (∪)); reflexivity.
Qed.

(** X7: apart from [cn] of [EnumerateClassNames], a parameter that the
    caller leaves unset has the default [None], and [None] is what the
    method call carries at the place of that parameter. *)
Lemma unset_parameter_forwards_None
    name f route i p args kw vs extra kwextra st c :
  (name, f) ∈ operations →
  (name, route) ∈ documented_route →
  f_params f !! i = Some p →
  (name, p_name p) ≠ ("EnumerateClassNames", "cn") →
  args !! i = None →
  kw !! p_name p = None →
  CONN st = Some c →
  bind_arguments (f_params f) (variadic f) args kw = Ok (vs, extra, kwextra) →
  p_default p = Some VNone ∧
  ∃ cl,
    trace (call_function f args kw st).2 = trace st ++ [EvCall c cl] ∧
    place route i cl = Some VNone.
Proof.
  intros Hin Hroute Hp Hne Hargs Hkw Hc Hb.
  destruct (bind_arguments_Ok _ _ _ _ _ _ _ Hb) as (Hbp & Hlen & _).
  pose proof (bind_params_lookup _ _ _ _ _ _ Hbp Hp) as Hv.
  rewrite Hargs, Hkw in Hv.
  rewrite (call_function_bound _ _ _ _ _ _ _ Hb).
  clear Hargs Hkw Hb Hbp.
  each_member Hin; injection Hin as -> ->;
    (each_member Hroute; try discriminate Hroute; injection Hroute as ->);
    simpl in Hlen; name_values vs Hlen;
    each_index i Hp; simpl in Hp;
    injection Hp as <-; try discriminate Hv; try done;
    injection Hv as ->;
    (split; [reflexivity|]);
    (eexists (MkCall _ _ _); split;
     [ simpl; unfold bind; rewrite (CONN_call_run _ _ _ _ _ Hc);
       destruct (conn_method c _ (world st)) as [[?|?] ?]; reflexivity
     | reflexivity ]).
Qed.

End Operations.

(** ** Setting up the connection, and describing it *)

Section Connection.

Context {World : Type} `{External World}.

Implicit Types (st : State World) (c : WBEMConnection) (opts : Options).

(** The url of a server name that is not empty. *)
Lemma connection_url_nonempty server opts :
  server ≠ "" →
  connection_url server opts =
    Ok (if bool_decide (String.get 0 server = Some "/"%char) then server
        else
          let scheme := if no_ssl opts then "http://" else "https://" in
          match port opts with
          | Some p => scheme +:+ server +:+ ":" +:+ format_d p
          | None => scheme +:+ server
          end).
Proof.
  intros Hne. destruct server as [|ch rest]; [done|]. simpl.
  destruct (Ascii.eqb_spec ch "/") as [->|Hch].
  - by rewrite bool_decide_eq_true_2.
  - rewrite bool_decide_eq_false_2 by congruence.
    by destruct (no_ssl opts), (port opts).
Qed.

(** All runs of [_remote_connection]: the url fails, or the password prompt
    fails, or the connection is built from the url, the credentials and the
    namespace, stored in [CONN] with its debug flag on, and returned. *)
Lemma _remote_connection_run server opts st :
  _remote_connection server opts st =
    match connection_url server opts with
    | Raise e => (Raise e, st)
    | Ok u =>
        match user opts, password opts with
        | Some usr, None =>
            match getpass_getpass (password_prompt usr) (world st) with
            | (Ok pw, w') =>
                let conn :=
                  MkConn u (Some (Some usr, Some pw)) (namespace opts) true in
                (Ok (conn,
                     MkOptions (no_ssl opts) (port opts) (Some usr) (Some pw)
                       (namespace opts)),
                 MkState (Some conn) w'
                   (trace st ++ [EvGetpass (password_prompt usr)]))
            | (Raise e, w') =>
                (Raise e,
                 MkState (CONN st) w'
                   (trace st ++ [EvGetpass (password_prompt usr)]))
            end
        | None, None =>
            let conn := MkConn u None (namespace opts) true in
            (Ok (conn, opts), MkState (Some conn) (world st) (trace st))
        | usr, pw =>
            let conn := MkConn u (Some (usr, pw)) (namespace opts) true in
            (Ok (conn, opts), MkState (Some conn) (world st) (trace st))
        end
    end.
Proof.
  unfold _remote_connection, bind.
  destruct (connection_url server opts) as [u|e]; [|done]. simpl.
  destruct opts as [nossl prt [usr|] [pw|] ns]; simpl; try done.
  unfold getpass. simpl.
  by destruct (getpass_getpass _ (world st)) as [[pw|e] w'].
Qed.

(** C5, for a server name that is not empty: a name that begins with [/]
    is the url as it is; any other name gets [https://] in front, or
    [http://] under [--no-ssl], and [:] with the port number behind when a
    port is given.  This url is the one the connection in [CONN] holds, and
    the function fails only if the password prompt does. *)
Theorem url_of_connection server opts st :
  server ≠ "" →
  let expected :=
    if bool_decide (String.get 0 server = Some "/"%char) then server
    else
      let scheme := if no_ssl opts then "http://" else "https://" in
      match port opts with
      | Some p => scheme +:+ server +:+ ":" +:+ format_d p
      | None => scheme +:+ server
      end in
  match _remote_connection server opts st with
  | (Ok (c, _), st') => CONN st' = Some c ∧ url c = expected
  | (Raise e, _) =>
      ∃ usr w', user opts = Some usr ∧ password opts = None ∧
        getpass_getpass (password_prompt usr) (world st) = (Raise e, w')
  end.
Proof.
  intros Hne. simpl.
  rewrite _remote_connection_run, (connection_url_nonempty _ _ Hne).
  destruct (user opts) as [usr|] eqn:Hu, (password opts) as [pw|] eqn:Hp;
    simpl; try done.
  destruct (getpass_getpass (password_prompt usr) (world st))
    as [[pw|e] w'] eqn:Hg; simpl; eauto.
Qed.


(** C7: the text names the url and the default namespace of the connection
    in [CONN]; between them it names the user of the credentials after [as]
    (the word [None] when the credentials have no user), or it says
    [without credentials] when there are none.  Nothing else is read: the
    state stays, and a connection with the same url, credentials and default
    namespace gives the same text. *)
Theorem connection_info_text st c :
  CONN st = Some c →
  ∃ info,
    _get_connection_info st = (Ok info, st) ∧
    info =
      "Connected to " +:+ url c +:+
      match creds c with
      | Some (Some usr, _) => " as " +:+ usr
      | Some (None, _) => " as None"
      | None => " without credentials"
      end +:+
      ", default namespace " +:+ default_namespace c ∧
    (∃ before after, info = before +:+ url c +:+ after) ∧
    (∃ before after, info = before +:+ default_namespace c +:+ after) ∧
    (∀ usr pw,
       creds c = Some (Some usr, pw) →
       ∃ before after, info = before +:+ " as " +:+ usr +:+ after) ∧
    (creds c = None →
     ∃ before after, info = before +:+ " without credentials" +:+ after) ∧
    (∀ st2 c2,
       CONN st2 = Some c2 →
       url c2 = url c → creds c2 = creds c →
       default_namespace c2 = default_namespace c →
       (_get_connection_info st2).1 = Ok info).
Proof.
  intros Hc.
  set (middle := match creds c with
                 | Some (Some usr, _) => " as " +:+ usr
                 | Some (None, _) => " as None"
                 | None => " without credentials"
                 end).
  set (tail := ", default namespace " +:+ default_namespace c).
  assert (∀ c', url c' = url c → creds c' = creds c →
            default_namespace c' = default_namespace c →
            ∀ st', CONN st' = Some c' →
            _get_connection_info st' =
              (Ok ("Connected to " +:+ url c +:+ middle +:+ tail), st'))
    as Hrun.
  { intros c' Hu Hcr Hns st' Hc'.
    unfold _get_connection_info, bind, get_CONN, ret. rewrite Hc'.
    rewrite Hu, Hcr, Hns. subst middle tail.
    f_equal. f_equal.
    destruct (creds c) as [[[usr|] pw]|]; simpl;
      rewrite !append_assoc; reflexivity. }
  eexists. split; [by apply (Hrun c)|]. split; [reflexivity|].
  split; [by exists "Connected to ", (middle +:+ tail)|].
  split.
  { exists ("Connected to " +:+ url c +:+ middle +:+ ", default namespace "),
      "".
    subst tail. rewrite append_nil_r, !append_assoc. reflexivity. }
  split.
  { intros usr pw Hcr. exists ("Connected to " +:+ url c), tail.
    subst middle. rewrite Hcr, !append_assoc. reflexivity. }
  split.
  { intros Hcr. exists ("Connected to " +:+ url c), tail.
    subst middle. rewrite Hcr, !append_assoc. reflexivity. }
  intros st2 c2 Hc2 Hu Hcr Hns. by rewrite (Hrun c2 Hu Hcr Hns st2 Hc2).
Qed.

End Connection.

(** ** The short names *)

Section Aliases.

Context {World : Type} `{External World}.

Implicit Types (st : State World).

(** C8: after the module has loaded, each short name is bound to the very
    function that its long name is bound to, one of the operation functions,
    so a call through either name runs the same way on all arguments. *)
Theorem alias_is_long_name short long :
  (short, long) ∈ alias_table →
  ∃ ns f,
    module_namespace = Some ns ∧
    ns !! short = Some f ∧
    ns !! long = Some f ∧
    (long, f) ∈ operations ∧
    ∀ args kw st,
      call_global short args kw st = call_global long args kw st.
Proof.
  intros Hin.
  each_member Hin; injection Hin as -> ->;
    (eexists _, _; split; [reflexivity|]; split; [reflexivity|];
     split; [reflexivity|]; split; [repeat constructor|]; reflexivity).
Qed.

End Aliases.

(** ** The statements at work in the small world *)

(** [ModifyInstance] passes through and gives [None]. *)
Lemma operations_pass_through_witness :
  ("ModifyInstance", ModifyInstance) ∈ operations (World := nat) ∧
  ("ModifyInstance", [ToPositional; ToKeyword "IncludeQualifiers"; ToKeyword "PropertyList"])
    ∈ documented_route ∧
  "ModifyInstance" ≠ "EnumerateClassNames" ∧
  "ModifyInstance" ≠ "EnumerateClasses" ∧
  call_function ModifyInstance [VStr "inst"]
    {[ "pl" := VList [VStr "Name"] ]} Demo.connected =
    finish "ModifyInstance"
      (pass_through_spec "ModifyInstance" (f_params ModifyInstance)
         (variadic ModifyInstance)
         [ToPositional; ToKeyword "IncludeQualifiers"; ToKeyword "PropertyList"]
         [VStr "inst"] {[ "pl" := VList [VStr "Name"] ]}) Demo.connected.
Proof.
  assert (h1 : ("ModifyInstance", ModifyInstance) ∈ operations (World := nat))
    by repeat constructor.
  assert (h2 : ("ModifyInstance", [ToPositional; ToKeyword "IncludeQualifiers"; ToKeyword "PropertyList"])
                 ∈ documented_route)
    by repeat constructor.
  assert (h3 : "ModifyInstance" ≠ "EnumerateClassNames") by discriminate.
  assert (h4 : "ModifyInstance" ≠ "EnumerateClasses") by discriminate.
  exact (conj h1 (conj h2 (conj h3 (conj h4
    (operations_pass_through "ModifyInstance" ModifyInstance _
       [VStr "inst"] {[ "pl" := VList [VStr "Name"] ]} Demo.connected
       h1 h2 h3 h4))))).
Defined.

(** Three calls that are no pass-through: [ModifyInstance] gives [None]
    where the method gives a value; [EnumerateClasses] calls another method
    than its own; [EnumerateClassNames] sends the namespace as class name. *)
Lemma pass_through_counterexample :
  call_function ModifyInstance [VStr "inst"] ∅ Demo.connected ≠
    pass_through_spec "ModifyInstance" (f_params ModifyInstance) false
      [ToPositional; ToKeyword "IncludeQualifiers"; ToKeyword "PropertyList"]
      [VStr "inst"] ∅ Demo.connected ∧
  call_function EnumerateClasses [] ∅ Demo.connected ≠
    pass_through_spec "EnumerateClasses" (f_params EnumerateClasses) false
      [ToPositional; ToKeyword "ClassName"; ToKeyword "DeepInheritance"; ToKeyword "LocalOnly";
       ToKeyword "IncludeQualifiers"; ToKeyword "IncludeClassOrigin"]
      [] ∅ Demo.connected ∧
  call_function EnumerateClassNames []
    {[ "ns" := VStr "root/cimv2"; "cn" := VNone; "di" := VNone ]}
    Demo.connected ≠
    pass_through_spec "EnumerateClassNames" (f_params EnumerateClassNames)
      false [ToPositional; ToKeyword "ClassName"; ToKeyword "DeepInheritance"]
      [] {[ "ns" := VStr "root/cimv2"; "cn" := VNone; "di" := VNone ]}
      Demo.connected.
Proof.
  split; [|split]; intros Heq.
  - apply (f_equal fst) in Heq. vm_compute in Heq. discriminate Heq.
  - apply (f_equal fst) in Heq. vm_compute in Heq. discriminate Heq.
  - apply (f_equal (fun out =>
             (fun cl => c_kwargs cl !! "ClassName")
               <$> requests (trace out.2))) in Heq.
    vm_compute in Heq. discriminate Heq.
Qed.

(** [DeleteInstance] drops the tuple that the server answers. *)
Lemma return_value_of_operation_witness :
  ("DeleteInstance", DeleteInstance) ∈ operations (World := nat) ∧
  CONN Demo.connected = Some Demo.sheldon ∧
  bind_arguments (f_params (DeleteInstance (World := nat)))
    (variadic (DeleteInstance (World := nat))) [VStr "path"] ∅
    = Ok ([VStr "path"], [], ∅) ∧
  ∃ cl,
    trace (call_function DeleteInstance [VStr "path"] ∅ Demo.connected).2 =
      trace Demo.connected ++ [EvCall Demo.sheldon cl] ∧
    ∀ v, (conn_method Demo.sheldon cl (world Demo.connected)).1 = Ok v →
      (call_function DeleteInstance [VStr "path"] ∅ Demo.connected).1 =
        Ok (if bool_decide
                 ("DeleteInstance" ∈
                    ["ModifyInstance"; "DeleteInstance"; "CreateClass";
                     "DeleteClass"; "SetQualifier"; "DeleteQualifier"])
            then VNone else v).
Proof.
  assert (h1 : ("DeleteInstance", DeleteInstance) ∈ operations (World := nat))
    by repeat constructor.
  assert (h2 : CONN Demo.connected = Some Demo.sheldon) by reflexivity.
  assert (h3 : bind_arguments (f_params (DeleteInstance (World := nat)))
                 (variadic (DeleteInstance (World := nat))) [VStr "path"] ∅
               = Ok ([VStr "path"], [], ∅)) by reflexivity.
  exact (conj h1 (conj h2 (conj h3
    (return_value_of_operation "DeleteInstance" DeleteInstance
       [VStr "path"] ∅ [VStr "path"] [] ∅ Demo.connected Demo.sheldon
       h1 h2 h3)))).
Defined.

(** The CIM error of the server for [DeleteClass] comes out of the
    function. *)
Lemma error_of_method_propagates_witness :
  ("DeleteClass", DeleteClass) ∈ operations (World := nat) ∧
  CONN Demo.connected = Some Demo.sheldon ∧
  bind_arguments (f_params (DeleteClass (World := nat)))
    (variadic (DeleteClass (World := nat))) [VStr "CIM_Foo"] ∅
    = Ok ([VStr "CIM_Foo"; VNone], [], ∅) ∧
  ∃ cl,
    (call_function DeleteClass [VStr "CIM_Foo"] ∅ Demo.connected).2 =
      MkState (Some Demo.sheldon)
        (conn_method Demo.sheldon cl (world Demo.connected)).2
        (trace Demo.connected ++ [EvCall Demo.sheldon cl]) ∧
    ∀ e, (conn_method Demo.sheldon cl (world Demo.connected)).1 = Raise e →
      (call_function DeleteClass [VStr "CIM_Foo"] ∅ Demo.connected).1
        = Raise e.
Proof.
  assert (h1 : ("DeleteClass", DeleteClass) ∈ operations (World := nat))
    by repeat constructor.
  assert (h2 : CONN Demo.connected = Some Demo.sheldon) by reflexivity.
  assert (h3 : bind_arguments (f_params (DeleteClass (World := nat)))
                 (variadic (DeleteClass (World := nat))) [VStr "CIM_Foo"] ∅
               = Ok ([VStr "CIM_Foo"; VNone], [], ∅)) by reflexivity.
  exact (conj h1 (conj h2 (conj h3
    (error_of_method_propagates "DeleteClass" DeleteClass
       [VStr "CIM_Foo"] ∅ [VStr "CIM_Foo"; VNone] [] ∅
       Demo.connected Demo.sheldon h1 h2 h3)))).
Defined.

(** The error does reach the caller in this world, after one call. *)
Example DeleteClass_fails :
  call_function DeleteClass [VStr "CIM_Foo"] ∅ Demo.connected =
    (Raise (CIMError 5 "CIM_ERR_INVALID_CLASS"),
     MkState (Some Demo.sheldon) 1
       [EvCall Demo.sheldon
          (MkCall "DeleteClass" [VStr "CIM_Foo"; VNone] ∅)]).
Proof. reflexivity. Qed.

(** [EnumerateClasses(cn=..., di=True)] *)
Lemma EnumerateClasses_calls_EnumerateClassNames_witness :
  CONN Demo.connected = Some Demo.sheldon ∧
  bind_arguments (f_params (EnumerateClasses (World := nat))) false []
    {[ "cn" := VStr "CIM_ManagedElement"; "di" := VBool true ]}
    = Ok ([VNone; VStr "CIM_ManagedElement"; VBool true; VNone; VNone; VNone],
          [], ∅) ∧
  ∃ ns cn di lo iq ico,
    [VNone; VStr "CIM_ManagedElement"; VBool true; VNone; VNone; VNone]
      = [ns; cn; di; lo; iq; ico] ∧
    let cl := MkCall "EnumerateClassNames" [ns]
                {[ "ClassName" := cn; "DeepInheritance" := di;
                   "LocalOnly" := lo; "IncludeQualifiers" := iq;
                   "IncludeClassOrigin" := ico ]} in
    call_function EnumerateClasses []
      {[ "cn" := VStr "CIM_ManagedElement"; "di" := VBool true ]}
      Demo.connected =
      ((conn_method Demo.sheldon cl (world Demo.connected)).1,
       MkState (Some Demo.sheldon)
         (conn_method Demo.sheldon cl (world Demo.connected)).2
         (trace Demo.connected ++ [EvCall Demo.sheldon cl])).
Proof.
  assert (h1 : CONN Demo.connected = Some Demo.sheldon) by reflexivity.
  assert (h2 : bind_arguments (f_params (EnumerateClasses (World := nat)))
                 false []
                 {[ "cn" := VStr "CIM_ManagedElement"; "di" := VBool true ]}
               = Ok ([VNone; VStr "CIM_ManagedElement"; VBool true; VNone;
                      VNone; VNone], [], ∅)) by reflexivity.
  exact (conj h1 (conj h2
    (EnumerateClasses_calls_EnumerateClassNames []
       {[ "cn" := VStr "CIM_ManagedElement"; "di" := VBool true ]}
       _ [] ∅ Demo.connected Demo.sheldon h1 h2))).
Defined.

(** In this world the answer names the method that was reached. *)
Example EnumerateClasses_answer :
  (call_function EnumerateClasses [] ∅ Demo.connected).1 =
    Ok (VTuple [VStr "EnumerateClassNames"; VNone]).
Proof. reflexivity. Qed.

(** [wbemcli localhost --port 15989 -n root/cimv2 -u sheldon] *)
Lemma url_of_connection_witness :
  "localhost" ≠ "" ∧
  match _remote_connection "localhost" Demo.opts_sheldon Demo.unconnected with
  | (Ok (c, _), st') =>
      CONN st' = Some c ∧ url c = "https://localhost:15989"
  | (Raise e, _) =>
      ∃ usr w', user Demo.opts_sheldon = Some usr ∧
        password Demo.opts_sheldon = None ∧
        getpass_getpass (password_prompt usr) (world Demo.unconnected)
          = (Raise e, w')
  end.
Proof.
  assert (h1 : "localhost" ≠ "") by discriminate.
  exact (conj h1
    (url_of_connection "localhost" Demo.opts_sheldon Demo.unconnected h1)).
Defined.

(** With an empty server name no connection comes about. *)
Lemma url_of_connection_counterexample :
  _remote_connection "" Demo.opts_default Demo.unconnected =
    (Raise (IndexError "string index out of range"), Demo.unconnected) ∧
  ¬ ∃ c opts' st',
      _remote_connection "" Demo.opts_default Demo.unconnected
        = (Ok (c, opts'), st') ∧
      url c = "https://" +:+ "".
Proof.
  split; [reflexivity|].
  intros (c & opts' & st' & Hrun & _). discriminate Hrun.
Qed.

(** The session of the usage text, from the prompt to the banner. *)
Example session_of_sheldon :
  _remote_connection "localhost" Demo.opts_sheldon Demo.unconnected =
    (Ok (Demo.sheldon,
         MkOptions false (Some 15989%Z) (Some "sheldon") (Some "penny42")
           "root/cimv2"),
     MkState (Some Demo.sheldon) 1
       [EvGetpass "Enter password for sheldon: "]) ∧
  (_get_connection_info Demo.connected).1 =
    Ok "Connected to https://localhost:15989 as sheldon, default namespace root/cimv2".
Proof. split; reflexivity. Qed.

(** A local path stays as it is, port or not; [--no-ssl] picks [http]. *)
Example urls :
  connection_url "/var/run/tog-pegasus/cimxml.socket"
    (MkOptions false (Some 5989%Z) None None "root/cimv2")
    = Ok "/var/run/tog-pegasus/cimxml.socket" ∧
  connection_url "host" (MkOptions true (Some 5988%Z) None None "root/cimv2")
    = Ok "http://host:5988" ∧
  connection_url "host" (MkOptions false None None None "root/cimv2")
    = Ok "https://host".
Proof. repeat split; reflexivity. Qed.

(** A password without a user. *)
Example password_without_user :
  (_remote_connection "host"
     (MkOptions false None None (Some "penny42") "root/cimv2")
     Demo.unconnected).1 =
    Ok (MkConn "https://host" (Some (None, Some "penny42")) "root/cimv2" true,
        MkOptions false None None (Some "penny42") "root/cimv2") ∧
  (_get_connection_info
     (MkState
        (Some (MkConn "https://host" (Some (None, Some "penny42"))
                 "root/cimv2" true)) 0 [])).1 =
    Ok "Connected to https://host as None, default namespace root/cimv2".
Proof. split; reflexivity. Qed.

(** The banner line of the connection of the small world. *)
Lemma connection_info_text_witness :
  CONN Demo.connected = Some Demo.sheldon ∧
  ∃ info,
    _get_connection_info Demo.connected = (Ok info, Demo.connected) ∧
    info =
      "Connected to https://localhost:15989 as sheldon, default namespace root/cimv2" ∧
    (∃ before after, info = before +:+ "https://localhost:15989" +:+ after) ∧
    (∃ before after, info = before +:+ "root/cimv2" +:+ after) ∧
    (∀ usr pw,
       Some (Some "sheldon", Some "penny42") = Some (Some usr, pw) →
       ∃ before after, info = before +:+ " as " +:+ usr +:+ after) ∧
    (Some (Some "sheldon", Some "penny42") = None →
     ∃ before after, info = before +:+ " without credentials" +:+ after) ∧
    (∀ (st2 : State nat) c2,
       CONN st2 = Some c2 →
       url c2 = "https://localhost:15989" →
       creds c2 = Some (Some "sheldon", Some "penny42") →
       default_namespace c2 = "root/cimv2" →
       (_get_connection_info st2).1 = Ok info).
Proof.
  assert (h1 : CONN Demo.connected = Some Demo.sheldon) by reflexivity.
  exact (conj h1 (connection_info_text Demo.connected Demo.sheldon h1)).
Defined.

(** The three forms of the text: a user, a password without user, no
    credentials. *)
Example connection_info_forms :
  (_get_connection_info
     (MkState (Some (MkConn "https://h" (Some (Some "sheldon", None)) "root/x"
                       false)) 0 [])).1 =
    Ok "Connected to https://h as sheldon, default namespace root/x" ∧
  (_get_connection_info
     (MkState (Some (MkConn "/socket" (Some (None, Some "penny42")) "root/x"
                       true)) 0 [])).1 =
    Ok "Connected to /socket as None, default namespace root/x" ∧
  (_get_connection_info
     (MkState (Some (MkConn "http://h:5988" None "interop" true)) 0 [])).1 =
    Ok "Connected to http://h:5988 without credentials, default namespace interop".
Proof. repeat split; reflexivity. Qed.

(** [ecn] and [EnumerateClassNames] *)
Lemma alias_is_long_name_witness :
  ("ecn", "EnumerateClassNames") ∈ alias_table ∧
  ∃ ns (f : PyFunction nat),
    module_namespace = Some ns ∧
    ns !! "ecn" = Some f ∧
    ns !! "EnumerateClassNames" = Some f ∧
    ("EnumerateClassNames", f) ∈ operations ∧
    ∀ args kw (st : State nat),
      call_global "ecn" args kw st =
      call_global "EnumerateClassNames" args kw st.
Proof.
  assert (h1 : ("ecn", "EnumerateClassNames") ∈ alias_table)
    by repeat constructor.
  exact (conj h1 (alias_is_long_name "ecn" "EnumerateClassNames" h1)).
Defined.

(** The example of the spec, [EnumerateClassNames(ns="root/cimv2", cn=None,
    di=None)], and the same call with [cn] left out: the request carries the
    namespace as [ClassName]. *)
Example EnumerateClassNames_request :
  requests
    (trace
       (call_function EnumerateClassNames []
          {[ "ns" := VStr "root/cimv2"; "cn" := VNone; "di" := VNone ]}
          Demo.connected).2) =
    [MkCall "EnumerateClassNames" [VStr "root/cimv2"]
       {[ "ClassName" := VStr "root/cimv2"; "DeepInheritance" := VNone ]}] ∧
  requests
    (trace
       (call_function EnumerateClassNames []
          {[ "ns" := VStr "root/cimv2" ]} Demo.connected).2) =
    [MkCall "EnumerateClassNames" [VStr "root/cimv2"]
       {[ "ClassName" := VStr "root/cimv2"; "DeepInheritance" := VNone ]}].
Proof. split; reflexivity. Qed.

(** [EnumerateInstances("CIM_Foo")]: the five options the caller leaves out
    all travel as [None]. *)
Example EnumerateInstances_request :
  requests
    (trace
       (call_function EnumerateInstances [VStr "CIM_Foo"] ∅
          Demo.connected).2) =
    [MkCall "EnumerateInstances" [VStr "CIM_Foo"; VNone]
       {[ "LocalOnly" := VNone; "DeepInheritance" := VNone;
          "IncludeQualifiers" := VNone; "IncludeClassOrigin" := VNone;
          "PropertyList" := VNone ]}].
Proof. reflexivity. Qed.

(** Asking twice is calling twice: the second call reaches the server like
    the first. *)
Example EnumerateQualifiers_twice :
  (do! call_function EnumerateQualifiers [] ∅ in
   call_function EnumerateQualifiers [] ∅) Demo.connected =
    (Ok (VTuple [VStr "EnumerateQualifiers"; VNone]),
     MkState (Some Demo.sheldon) 2
       [EvCall Demo.sheldon (MkCall "EnumerateQualifiers" [VNone] ∅);
        EvCall Demo.sheldon (MkCall "EnumerateQualifiers" [VNone] ∅)]).
Proof. reflexivity. Qed.

(** [GetInstance(path, iq=False)]: the [LocalOnly] that the caller leaves
    out is the second parameter, and the request has [None] at its place,
    next to the [False] that the caller did give. *)
Example GetInstance_unset_lo :
  (p_default ("lo" =: VNone) = Some VNone ∧
   ∃ cl,
     trace (call_function GetInstance [VStr "path"]
              {[ "iq" := VBool false ]} Demo.connected).2 =
       trace Demo.connected ++ [EvCall Demo.sheldon cl] ∧
     place [ToPositional; ToKeyword "LocalOnly";
            ToKeyword "IncludeQualifiers"; ToKeyword "IncludeClassOrigin";
            ToKeyword "PropertyList"] 1 cl = Some VNone) ∧
  requests
    (trace (call_function GetInstance [VStr "path"]
              {[ "iq" := VBool false ]} Demo.connected).2) =
    [MkCall "GetInstance" [VStr "path"]
       {[ "LocalOnly" := VNone; "IncludeQualifiers" := VBool false;
          "IncludeClassOrigin" := VNone; "PropertyList" := VNone ]}].
Proof.
  split; [|reflexivity].
  split; [reflexivity|].
  eexists (MkCall _ _ _). split; reflexivity.
Qed.

(** ** More on argument binding *)

(** A keyword that names no parameter does not touch the named
    parameters. *)
Lemma bind_params_insert_other ps args kw k v :
  k ∉ p_name <$> ps →
  bind_params ps args (<[k := v]> kw) = bind_params ps args kw.
Proof.
  revert args. induction ps as [|q ps IH]; intros args Hk; [done|].
  rewrite fmap_cons, not_elem_of_cons in Hk. destruct Hk as [Hq Hk].
  simpl. rewrite (lookup_insert_ne kw k (p_name q) v Hq).
  destruct args as [|a args']; by rewrite !IH.
Qed.

(** The keywords that are left over do not depend on the keywords that name
    a parameter. *)
Lemma extra_kwargs_insert_param ps kw k v :
  k ∈ p_name <$> ps →
  extra_kwargs ps (<[k := v]> kw) = extra_kwargs ps kw.
Proof.
  intros Hk. apply map_eq. intros j. unfold extra_kwargs.
  destruct (decide (j ∈ p_name <$> ps)) as [Hj|Hj].
  - by rewrite !lookup_foldr_delete.
  - rewrite !lookup_foldr_delete_not_elem_of by done.
    apply lookup_insert_ne. intros ->. done.
Qed.

Lemma extra_kwargs_lookup_other ps kw k :
  k ∉ p_name <$> ps → extra_kwargs ps kw !! k = kw !! k.
Proof. intros Hk. by apply lookup_foldr_delete_not_elem_of. Qed.

(** Giving the default of an omitted parameter by keyword changes nothing. *)
Lemma bind_params_default_by_keyword ps args kw i p d :
  NoDup (p_name <$> ps) →
  ps !! i = Some p →
  p_default p = Some d →
  args !! i = None →
  kw !! p_name p = None →
  bind_params ps args (<[p_name p := d]> kw) = bind_params ps args kw.
Proof.
  revert args i.
  induction ps as [|q ps IH]; intros args i Hnd Hp Hd Ha Hkw; [done|].
  rewrite fmap_cons, NoDup_cons in Hnd. destruct Hnd as [Hq Hnd].
  destruct i as [|i]; simpl in Hp.
  - injection Hp as ->. destruct args as [|a args']; [|done].
    simpl. rewrite lookup_insert_eq, Hkw, Hd.
    by rewrite (bind_params_insert_other ps [] kw _ _ Hq).
  - assert (p_name q ≠ p_name p) as Hne.
    { intros Heq. apply Hq. rewrite Heq.
      apply list_elem_of_fmap_2. by apply list_elem_of_lookup_2 with i. }
    simpl. rewrite (lookup_insert_ne kw _ _ d (not_eq_sym Hne)).
    destruct args as [|a args'].
    + by rewrite (IH [] i Hnd Hp Hd eq_refl Hkw).
    + simpl in Ha. by rewrite (IH args' i Hnd Hp Hd Ha Hkw).
Qed.

(** The last positional argument can as well be given by the name of its
    parameter. *)
Lemma bind_params_last_by_keyword ps args kw p a :
  NoDup (p_name <$> ps) →
  ps !! length args = Some p →
  kw !! p_name p = None →
  bind_params ps (args ++ [a]) kw =
  bind_params ps args (<[p_name p := a]> kw).
Proof.
  revert args.
  induction ps as [|q ps IH]; intros args Hnd Hp Hkw; [done|].
  rewrite fmap_cons, NoDup_cons in Hnd. destruct Hnd as [Hq Hnd].
  destruct args as [|b args']; simpl in Hp.
  - injection Hp as ->. simpl. rewrite lookup_insert_eq, Hkw.
    by rewrite (bind_params_insert_other ps [] kw _ _ Hq).
  - assert (p_name q ≠ p_name p) as Hne.
    { intros Heq. apply Hq. rewrite Heq.
      apply list_elem_of_fmap_2. by apply list_elem_of_lookup_2 with (length args'). }
    simpl. rewrite (lookup_insert_ne kw _ _ a (not_eq_sym Hne)).
    by rewrite (IH args' Hnd Hp Hkw).
Qed.
(** ** More on the operation functions *)

Section MoreOperations.

Context {World : Type} `{External World}.

Implicit Types (st : State World) (c : WBEMConnection) (cl : Call).
Implicit Types (f : PyFunction World).

Lemma operation_params_NoDup name f :
  (name, f) ∈ operations → NoDup (p_name <$> f_params f).
Proof.
  intros Hin.
  each_member Hin; injection Hin as -> ->;
    apply (bool_decide_unpack _); vm_compute; exact I.
Qed.

Lemma operation_defaults_None name f i p d :
  (name, f) ∈ operations →
  f_params f !! i = Some p → p_default p = Some d → d = VNone.
Proof.
  intros Hin Hp Hd.
  each_member Hin; injection Hin as -> ->;
    each_index i Hp; simpl in Hp; injection Hp as <-;
    simpl in Hd; congruence.
Qed.

Lemma operation_not_variadic name f :
  (name, f) ∈ operations → name ≠ "InvokeMethod" → variadic f = false.
Proof.
  intros Hin Hne. each_member Hin; injection Hin as -> ->; done.
Qed.

(** Argument binding raises nothing but [TypeError]. *)
Lemma bind_params_Raise ps args kw e :
  bind_params ps args kw = Raise e → ∃ msg, e = TypeError msg.
Proof.
  revert args. induction ps as [|q ps IH]; intros args Hb; [done|].
  simpl in Hb. destruct args as [|a args'].
  - destruct (bind_params ps [] kw) as [vs|e'] eqn:Hrec.
    + destruct (kw !! p_name q); [|destruct (p_default q)];
        inversion Hb; eauto.
    + destruct (kw !! p_name q); [|destruct (p_default q)];
        inversion Hb; subst; eauto.
  - destruct (kw !! p_name q); [inversion Hb; eauto|].
    destruct (bind_params ps args' kw) as [vs|e'] eqn:Hrec;
      inversion Hb; subst; eauto.
Qed.

Lemma bind_arguments_Raise ps va args kw e :
  bind_arguments ps va args kw = Raise e → ∃ msg, e = TypeError msg.
Proof.
  unfold bind_arguments. intros Hb.
  destruct (negb va && negb (bool_decide (extra_args ps args = [])));
    [inversion Hb; eauto|].
  destruct (negb va && negb (bool_decide (extra_kwargs ps kw = ∅)));
    [inversion Hb; eauto|].
  destruct (bind_params ps args kw) as [vs|e'] eqn:Hp; [done|].
  inversion Hb; subst. eauto using bind_params_Raise.
Qed.

(** X1: an operation function either fails before it reaches the connection,
    and then leaves everything as it was, or makes exactly one call of a
    method of the connection in [CONN]; it never binds [CONN] anew and never
    prompts. *)
Theorem operation_fails_early_or_calls_once name f args kw st :
  (name, f) ∈ operations →
  (∃ e, call_function f args kw st = (Raise e, st)) ∨
  (∃ c cl,
     CONN st = Some c ∧
     (call_function f args kw st).2 =
       MkState (Some c) (conn_method c cl (world st)).2
         (trace st ++ [EvCall c cl])).
Proof.
  intros Hin.
  destruct (bind_arguments (f_params f) (variadic f) args kw)
    as [[[vs extra] kwextra]|e] eqn:Hb.
  - destruct (CONN st) as [c|] eqn:Hc.
    + right.
      destruct (call_function_run _ _ _ _ _ _ _ _ _ Hin Hc Hb) as [cl Hrun].
      exists c, cl. by rewrite Hrun.
    + left. rewrite (call_function_bound _ _ _ _ _ _ _ Hb).
      destruct (bind_arguments_Ok _ _ _ _ _ _ _ Hb) as (_ & Hlen & _).
      destruct (operation_body name f vs extra kwextra Hin Hlen)
        as [cl Hbody].
      rewrite Hbody. unfold finish.
      case_bool_decide; unfold bind; rewrite (CONN_call_None _ _ _ _ Hc);
        eauto.
  - left. exists e. by apply call_function_unbound.
Qed.

(** X2: before a connection is set up, a call whose arguments bind raises
    [AttributeError] and changes nothing. *)
Theorem operation_without_connection name f args kw vs extra kwextra st :
  (name, f) ∈ operations →
  CONN st = None →
  bind_arguments (f_params f) (variadic f) args kw = Ok (vs, extra, kwextra) →
  call_function f args kw st =
    (Raise (AttributeError "'NoneType' object has no attribute"), st).
Proof.
  intros Hin Hc Hb.
  rewrite (call_function_bound _ _ _ _ _ _ _ Hb).
  destruct (bind_arguments_Ok _ _ _ _ _ _ _ Hb) as (_ & Hlen & _).
  destruct (operation_body name f vs extra kwextra Hin Hlen) as [cl Hbody].
  rewrite Hbody. unfold finish.
  case_bool_decide; unfold bind; by rewrite (CONN_call_None _ _ _ _ Hc).
Qed.

(** X3: apart from [InvokeMethod], an operation function refuses a positional
    argument beyond its parameters and a keyword that is not the name of one
    of its parameters, with [TypeError] and without a call. *)
Theorem operation_refuses_surplus name f args kw st :
  (name, f) ∈ operations →
  name ≠ "InvokeMethod" →
  length (f_params f) < length args ∨
    (∃ k, is_Some (kw !! k) ∧ k ∉ p_name <$> f_params f) →
  ∃ msg, call_function f args kw st = (Raise (TypeError msg), st).
Proof.
  intros Hin Hne Hsurplus.
  pose proof (operation_not_variadic _ _ Hin Hne) as Hva.
  destruct (bind_arguments (f_params f) (variadic f) args kw)
    as [[[vs extra] kwextra]|e] eqn:Hb.
  - exfalso.
    destruct (bind_arguments_Ok _ _ _ _ _ _ _ Hb)
      as (_ & _ & Hextra & Hkwextra & Hfix).
    destruct (Hfix Hva) as [-> ->].
    destruct Hsurplus as [Hlen|(k & [v Hk] & Hnot)].
    + unfold extra_args in Hextra. symmetry in Hextra.
      apply (f_equal length) in Hextra. rewrite length_drop in Hextra.
      simpl in Hextra. lia.
    + pose proof (extra_kwargs_lookup_other _ kw k Hnot) as Hl.
      rewrite <- Hkwextra, lookup_empty, Hk in Hl. done.
  - destruct (bind_arguments_Raise _ _ _ _ _ Hb) as [msg ->].
    exists msg. by apply call_function_unbound.
Qed.

(** X4: a call that leaves out a parameter without default fails with
    [TypeError] and without a call. *)
Theorem operation_requires_argument name f i p args kw st :
  (name, f) ∈ operations →
  f_params f !! i = Some p →
  p_default p = None →
  args !! i = None →
  kw !! p_name p = None →
  ∃ msg, call_function f args kw st = (Raise (TypeError msg), st).
Proof.
  intros Hin Hp Hd Ha Hkw.
  destruct (bind_arguments (f_params f) (variadic f) args kw)
    as [[[vs extra] kwextra]|e] eqn:Hb.
  - exfalso.
    destruct (bind_arguments_Ok _ _ _ _ _ _ _ Hb) as (Hbp & Hlen & _).
    pose proof (bind_params_lookup _ _ _ _ _ _ Hbp Hp) as Hv.
    rewrite Ha, Hkw, Hd in Hv.
    apply lookup_ge_None in Hv. apply lookup_lt_Some in Hp. lia.
  - destruct (bind_arguments_Raise _ _ _ _ _ Hb) as [msg ->].
    exists msg. by apply call_function_unbound.
Qed.

Lemma call_function_same_binding f args kw args' kw' st :
  bind_arguments (f_params f) (variadic f) args kw =
    bind_arguments (f_params f) (variadic f) args' kw' →
  call_function f args kw st = call_function f args' kw' st.
Proof. intros Hb. unfold call_function. by rewrite Hb. Qed.

(** X5: leaving an optional parameter out is the same as giving [None] for
    it by name. *)
Theorem omitted_parameter_is_None name f i p d args kw st :
  (name, f) ∈ operations →
  f_params f !! i = Some p →
  p_default p = Some d →
  args !! i = None →
  kw !! p_name p = None →
  call_function f args (<[p_name p := VNone]> kw) st =
  call_function f args kw st.
Proof.
  intros Hin Hp Hd Ha Hkw.
  pose proof (operation_defaults_None _ _ _ _ _ Hin Hp Hd) as ->.
  apply call_function_same_binding. unfold bind_arguments.
  rewrite extra_kwargs_insert_param.
  2: { apply list_elem_of_fmap_2. by apply list_elem_of_lookup_2 with i. }
  by rewrite (bind_params_default_by_keyword _ _ _ _ _ _
                (operation_params_NoDup _ _ Hin) Hp Hd Ha Hkw).
Qed.

(** X6: the last positional argument of a call can be given by the name of
    its parameter instead, with the same effect. *)
Theorem last_positional_by_keyword name f p args a kw st :
  (name, f) ∈ operations →
  f_params f !! length args = Some p →
  kw !! p_name p = None →
  call_function f (args ++ [a]) kw st =
  call_function f args (<[p_name p := a]> kw) st.
Proof.
  intros Hin Hp Hkw.
  apply call_function_same_binding. unfold bind_arguments.
  rewrite extra_kwargs_insert_param.
  2: { apply list_elem_of_fmap_2.
       by apply list_elem_of_lookup_2 with (length args). }
  rewrite (bind_params_last_by_keyword _ _ _ _ a
             (operation_params_NoDup _ _ Hin) Hp Hkw).
  apply lookup_lt_Some in Hp.
  unfold extra_args. rewrite !drop_ge; [done|lia|].
  rewrite length_app. simpl. lia.
Qed.

(** X8: [EnumerateClassNames] does not look at its parameter [cn]: two calls
    that differ in the class name only run the same way. *)
Theorem EnumerateClassNames_ignores_cn ns cn cn' di st :
  call_function EnumerateClassNames [ns; cn; di] ∅ st =
  call_function EnumerateClassNames [ns; cn'; di] ∅ st ∧
  call_function EnumerateClassNames []
    {[ "ns" := ns; "cn" := cn; "di" := di ]} st =
  call_function EnumerateClassNames []
    {[ "ns" := ns; "cn" := cn'; "di" := di ]} st.
Proof. split; reflexivity. Qed.

(** X9: [InvokeMethod] hands on the method name, the object path, every
    further positional argument in order and every keyword argument, and
    returns the outcome of the method. *)
Theorem InvokeMethod_forwards_all mn op params kw st :
  kw !! "mn" = None →
  kw !! "op" = None →
  call_function InvokeMethod (mn :: op :: params) kw st =
    CONN_call "InvokeMethod" (mn :: op :: params) kw st.
Proof.
  intros Hmn Hop.
  assert (bind_arguments (f_params (InvokeMethod (World := World))) true
            (mn :: op :: params) kw = Ok ([mn; op], params, kw)) as Hb.
  { unfold bind_arguments. simpl. rewrite Hmn, Hop.
    unfold extra_kwargs. simpl. by rewrite (delete_id _ _ Hop), (delete_id _ _ Hmn). }
  by rewrite (call_function_bound InvokeMethod _ _ _ _ _ _ Hb).
Qed.

(** X10: an input parameter of the CIM method that is called [mn] or [op]
    cannot be given to [InvokeMethod] by keyword: the call fails with
    [TypeError] and does not reach the connection. *)
Theorem InvokeMethod_refuses_mn_op_keyword mn op params kw st :
  is_Some (kw !! "mn") ∨ is_Some (kw !! "op") →
  ∃ msg,
    call_function InvokeMethod (mn :: op :: params) kw st =
      (Raise (TypeError msg), st).
Proof.
  intros Hclash.
  assert (∃ msg, bind_arguments (f_params (InvokeMethod (World := World)))
                   true (mn :: op :: params) kw = Raise (TypeError msg))
    as [msg Hb].
  { unfold bind_arguments. simpl.
    destruct (kw !! "mn") as [v|] eqn:Hmn; [eauto|].
    destruct Hclash as [[v Hv]|[v Hv]]; [done|]. rewrite Hv. eauto. }
  exists msg. by apply (call_function_unbound InvokeMethod).
Qed.

(** X11: two operation calls in sequence: the second call meets the world as
    the first one left it and the trace shows both calls in order; if the
    method of the first call raises, the second call is not made. *)
Theorem two_operations_in_sequence
    name1 f1 args1 kw1 b1 name2 f2 args2 kw2 b2 st c :
  (name1, f1) ∈ operations →
  (name2, f2) ∈ operations →
  CONN st = Some c →
  bind_arguments (f_params f1) (variadic f1) args1 kw1 = Ok b1 →
  bind_arguments (f_params f2) (variadic f2) args2 kw2 = Ok b2 →
  ∃ cl1 cl2,
    let out1 := conn_method c cl1 (world st) in
    let out2 := conn_method c cl2 out1.2 in
    (do! call_function f1 args1 kw1 in call_function f2 args2 kw2) st =
      match out1.1 with
      | Raise e =>
          (Raise e, MkState (Some c) out1.2 (trace st ++ [EvCall c cl1]))
      | Ok _ =>
          (match out2.1 with
           | Ok v =>
               Ok (if bool_decide (name2 ∈ returns_nothing) then VNone
                   else v)
           | Raise e => Raise e
           end,
           MkState (Some c) out2.2
             (trace st ++ [EvCall c cl1; EvCall c cl2]))
      end.
Proof.
  intros Hin1 Hin2 Hc Hb1 Hb2.
  destruct b1 as [[vs1 extra1] kwextra1], b2 as [[vs2 extra2] kwextra2].
  destruct (call_function_run _ _ _ _ _ _ _ _ _ Hin1 Hc Hb1) as [cl1 Hrun1].
  exists cl1.
  set (st1 := MkState (Some c) (conn_method c cl1 (world st)).2
                (trace st ++ [EvCall c cl1])).
  destruct (call_function_run name2 f2 args2 kw2 _ _ _ st1 c Hin2 eq_refl Hb2)
    as [cl2 Hrun2].
  exists cl2. simpl. unfold bind. rewrite Hrun1. fold st1.
  destruct (conn_method c cl1 (world st)).1 as [v1|e1]; [|done].
  rewrite Hrun2. simpl. by rewrite <- app_assoc.
Qed.

End MoreOperations.

(** ** More on the connection, the banner and the history file *)

Section MoreConnection.

Context {World : Type} `{External World}.

Implicit Types (st : State World) (c : WBEMConnection) (opts : Options).
Implicit Types (f : PyFunction World).

(** X12: for a server name that begins with [/] the options play no part in
    the url: [--port] and [--no-ssl] are ignored. *)
Theorem connection_url_local server opts :
  String.get 0 server = Some "/"%char →
  connection_url server opts = Ok server.
Proof.
  intros Hget. destruct server as [|ch rest]; [done|].
  simpl in Hget. injection Hget as ->. reflexivity.
Qed.

(** The connection that is returned is the one in [CONN]. *)
Lemma _remote_connection_CONN server opts st c opts' st' :
  _remote_connection server opts st = (Ok (c, opts'), st') →
  CONN st' = Some c.
Proof.
  rewrite _remote_connection_run.
  destruct (connection_url server opts) as [u|e]; [|done].
  destruct (user opts) as [usr|], (password opts) as [pw|]; simpl;
    try (intros Hrun; by inversion Hrun).
  destruct (getpass_getpass (password_prompt usr) (world st))
    as [[pw|e] w']; intros Hrun; by inversion Hrun.
Qed.

(** X13: the connection that [_remote_connection] returns has its debug flag
    on and the namespace of the options as default namespace, and the
    options come back as they were, the password apart. *)
Theorem connection_attributes server opts st c opts' st' :
  _remote_connection server opts st = (Ok (c, opts'), st') →
  debug c = true ∧
  default_namespace c = namespace opts ∧
  no_ssl opts' = no_ssl opts ∧
  port opts' = port opts ∧
  namespace opts' = namespace opts.
Proof.
  rewrite _remote_connection_run.
  destruct (connection_url server opts) as [u|e]; [|done].
  destruct opts as [nossl prt [usr|] [pw|] ns]; simpl;
    try (intros Hrun; by inversion Hrun).
  destruct (getpass_getpass (password_prompt usr) (world st))
    as [[pw|e] w']; intros Hrun; by inversion Hrun.
Qed.

(** X14: with a password, or without a user, [_remote_connection] succeeds on
    every server name that is not empty; it leaves the options, the world
    and the trace as they are, so nobody is prompted and no server is
    contacted. *)
Theorem connection_without_prompt server opts st :
  server ≠ "" →
  user opts = None ∨ is_Some (password opts) →
  ∃ c,
    _remote_connection server opts st =
      (Ok (c, opts), MkState (Some c) (world st) (trace st)).
Proof.
  intros Hne Hnp.
  rewrite _remote_connection_run, (connection_url_nonempty _ _ Hne).
  destruct (user opts) as [usr|], (password opts) as [pw|]; simpl; eauto.
  destruct Hnp as [?|[? ?]]; done.
Qed.

(** X15: [_remote_connection] calls no method of a connection, and it prompts
    at most once: with the text [Enter password for <user>: ], when the
    server name is not empty and a user comes without password. *)
Theorem connection_trace server opts st :
  trace (_remote_connection server opts st).2 =
    trace st ++
    match server, user opts, password opts with
    | String _ _, Some usr, None =>
        [EvGetpass ("Enter password for " +:+ usr +:+ ": ")]
    | _, _, _ => []
    end ∧
  requests (trace (_remote_connection server opts st).2) =
    requests (trace st).
Proof.
  assert (trace (_remote_connection server opts st).2 =
            trace st ++
            match server, user opts, password opts with
            | String _ _, Some usr, None => [EvGetpass (password_prompt usr)]
            | _, _, _ => []
            end) as Htrace.
  { rewrite _remote_connection_run.
    destruct server as [|ch rest]; [by rewrite app_nil_r|].
    destruct (connection_url (String ch rest) opts) as [u|e] eqn:Hurl.
    2: { simpl in Hurl. by destruct (Ascii.eqb ch "/"). }
    destruct (user opts) as [usr|], (password opts) as [pw|]; simpl;
      rewrite ?app_nil_r; try done.
    by destruct (getpass_getpass (password_prompt usr) (world st))
      as [[pw|e] w']. }
  split; [exact Htrace|]. rewrite Htrace. unfold requests.
  rewrite omap_app.
  destruct server, (user opts), (password opts); simpl;
    by rewrite app_nil_r.
Qed.

(** X16: when [_remote_connection] fails, [CONN] is what it was before: a
    connection that was there stays in use. *)
Theorem failed_connection_keeps_CONN server opts st e st' :
  _remote_connection server opts st = (Raise e, st') →
  CONN st' = CONN st.
Proof.
  rewrite _remote_connection_run.
  destruct (connection_url server opts) as [u|e0];
    [|intros Hrun; by inversion Hrun].
  destruct (user opts) as [usr|], (password opts) as [pw|]; simpl;
    try done.
  destruct (getpass_getpass (password_prompt usr) (world st))
    as [[pw|e1] w']; intros Hrun; by inversion Hrun.
Qed.

(** X17: after [_remote_connection] the connection text names the url that
    was built, the user as given (the word [None] for a password without
    user), or no credentials when neither was given, and the namespace of
    the options. *)
Theorem connection_info_after_connecting server opts st c opts' st' u :
  _remote_connection server opts st = (Ok (c, opts'), st') →
  connection_url server opts = Ok u →
  _get_connection_info st' =
    (Ok ("Connected to " +:+ u +:+
         match user opts, password opts with
         | None, None => " without credentials"
         | usr, _ => " as " +:+ format_s usr
         end +:+
         ", default namespace " +:+ namespace opts),
     st').
Proof.
  rewrite _remote_connection_run. intros Hrun Hurl. rewrite Hurl in Hrun.
  assert (∀ cr,
            CONN st' = Some (MkConn u cr (namespace opts) true) →
            _get_connection_info st' =
              (Ok ("Connected to " +:+ u +:+
                   match cr with
                   | Some cr => " as " +:+ format_s cr.1
                   | None => " without credentials"
                   end +:+
                   ", default namespace " +:+ namespace opts), st'))
    as Hinfo.
  { intros cr Hc. unfold _get_connection_info, bind, get_CONN, ret.
    rewrite Hc. simpl. f_equal. f_equal.
    destruct cr; rewrite !append_assoc; reflexivity. }
  destruct (user opts) as [usr|], (password opts) as [pw|]; simpl in *.
  - inversion Hrun; subst. by rewrite (Hinfo (Some (Some usr, Some pw))).
  - destruct (getpass_getpass (password_prompt usr) (world st))
      as [[pw|e1] w']; inversion Hrun; subst.
    by rewrite (Hinfo (Some (Some usr, Some pw))).
  - inversion Hrun; subst. by rewrite (Hinfo (Some (None, Some pw))).
  - inversion Hrun; subst. by rewrite (Hinfo None).
Qed.

(** X18: an operation function that is called after [_remote_connection]
    reaches the connection that was just built: its one method call goes to
    that connection, in the world as the set-up left it. *)
Theorem operation_after_connecting
    server opts st c opts' st' name f args kw bound :
  _remote_connection server opts st = (Ok (c, opts'), st') →
  (name, f) ∈ operations →
  bind_arguments (f_params f) (variadic f) args kw = Ok bound →
  ∃ cl,
    (do! _remote_connection server opts in call_function f args kw) st =
      (match (conn_method c cl (world st')).1 with
       | Ok v => Ok (if bool_decide (name ∈ returns_nothing) then VNone else v)
       | Raise e => Raise e
       end,
       MkState (Some c) (conn_method c cl (world st')).2
         (trace st' ++ [EvCall c cl])).
Proof.
  intros Hrun Hin Hb. destruct bound as [[vs extra] kwextra].
  assert (CONN st' = Some c) as Hc.
  { by apply (_remote_connection_CONN _ _ _ _ _ _ Hrun). }
  destruct (call_function_run _ _ _ _ _ _ _ _ _ Hin Hc Hb) as [cl Hcall].
  exists cl. unfold bind. by rewrite Hrun, Hcall.
Qed.


(** The banner under a connection, with the line feeds written out. *)
Lemma _get_banner_connected version st c :
  CONN st = Some c →
  _get_banner version st =
    (Ok (String "010" "" +:+ "Python " +:+ version +:+
         String "010" "" +:+ String "010" "" +:+
         "Wbemcli interactive shell" +:+
         String "010" "" +:+
         ("Connected to " +:+ url c +:+
          match creds c with
          | Some (Some usr, _) => " as " +:+ usr
          | Some (None, _) => " as None"
          | None => " without credentials"
          end +:+
          ", default namespace " +:+ default_namespace c) +:+
         String "010" "" +:+ "Press Ctrl-D to exit" +:+
         String "010" "" +:+ "Type h() for help"), st).
Proof.
  intros Hc.
  unfold _get_banner, _get_connection_info, bind, get_CONN, ret.
  rewrite Hc. f_equal. f_equal. unfold newline.
  destruct (creds c) as [[[usr|] pw]|]; simpl;
    rewrite !append_assoc; reflexivity.
Qed.

(** X20: the banner that [main] shows after a successful
    [_remote_connection] is, line by line: an empty line, [Python] with the
    version of the interpreter, an empty line, the name of the shell, the
    connection text with the url that was built, the user and the namespace
    of the options, and the two hints; making it changes nothing. *)
Theorem banner_after_connecting server opts st c opts' st' u version :
  _remote_connection server opts st = (Ok (c, opts'), st') →
  connection_url server opts = Ok u →
  _get_banner version st' =
    (Ok (String "010" "" +:+ "Python " +:+ version +:+
         String "010" "" +:+ String "010" "" +:+
         "Wbemcli interactive shell" +:+
         String "010" "" +:+
         ("Connected to " +:+ u +:+
          match user opts, password opts with
          | Some usr, _ => " as " +:+ usr
          | None, Some _ => " as None"
          | None, None => " without credentials"
          end +:+
          ", default namespace " +:+ namespace opts) +:+
         String "010" "" +:+ "Press Ctrl-D to exit" +:+
         String "010" "" +:+ "Type h() for help"), st').
Proof.
  intros Hrun Hurl.
  pose proof (_remote_connection_CONN _ _ _ _ _ _ Hrun) as Hc.
  rewrite (_get_banner_connected version st' c Hc). clear Hc.
  rewrite _remote_connection_run, Hurl in Hrun.
  destruct (user opts) as [usr|], (password opts) as [pw|]; simpl in Hrun.
  - by inversion Hrun.
  - destruct (getpass_getpass (password_prompt usr) (world st))
      as [[pw|e1] w']; by inversion Hrun.
  - by inversion Hrun.
  - by inversion Hrun.
Qed.

(** X21: the history file depends on the environment through [HOME] and, only
    when [HOME] is not set, through [HOMEPATH]; no other variable counts. *)
Theorem history_file_environment (environ environ' : gmap string string) :
  environ !! "HOME" = environ' !! "HOME" →
  (environ !! "HOME" = None →
   environ !! "HOMEPATH" = environ' !! "HOMEPATH") →
  history_file environ = history_file environ'.
Proof.
  intros Hhome Hpath. unfold history_file. rewrite <- Hhome.
  destruct (environ !! "HOME") as [home|]; [done|].
  by rewrite <- (Hpath eq_refl).
Qed.

End MoreConnection.

(** ** The further statements at work in the small world *)

(** [DeleteClass] makes its one call although the server refuses. *)
Lemma operation_fails_early_or_calls_once_witness :
  ("DeleteClass", DeleteClass) ∈ operations (World := nat) ∧
  ((∃ e, call_function DeleteClass [VStr "CIM_Foo"] ∅ Demo.connected
           = (Raise e, Demo.connected)) ∨
   (∃ c cl,
      CONN Demo.connected = Some c ∧
      (call_function DeleteClass [VStr "CIM_Foo"] ∅ Demo.connected).2 =
        MkState (Some c) (conn_method c cl (world Demo.connected)).2
          (trace Demo.connected ++ [EvCall c cl]))).
Proof.
  assert (h1 : ("DeleteClass", DeleteClass) ∈ operations (World := nat))
    by repeat constructor.
  exact (conj h1
    (operation_fails_early_or_calls_once "DeleteClass" DeleteClass
       [VStr "CIM_Foo"] ∅ Demo.connected h1)).
Defined.

(** [GetClass("CIM_Foo")] before any connection. *)
Lemma operation_without_connection_witness :
  ("GetClass", GetClass) ∈ operations (World := nat) ∧
  CONN Demo.unconnected = None ∧
  bind_arguments (f_params (GetClass (World := nat)))
    (variadic (GetClass (World := nat))) [VStr "CIM_Foo"] ∅
    = Ok ([VStr "CIM_Foo"; VNone; VNone; VNone; VNone; VNone], [], ∅) ∧
  call_function GetClass [VStr "CIM_Foo"] ∅ Demo.unconnected =
    (Raise (AttributeError "'NoneType' object has no attribute"),
     Demo.unconnected).
Proof.
  assert (h1 : ("GetClass", GetClass) ∈ operations (World := nat))
    by repeat constructor.
  assert (h2 : CONN Demo.unconnected = None) by reflexivity.
  assert (h3 : bind_arguments (f_params (GetClass (World := nat)))
                 (variadic (GetClass (World := nat))) [VStr "CIM_Foo"] ∅
               = Ok ([VStr "CIM_Foo"; VNone; VNone; VNone; VNone; VNone],
                     [], ∅)) by reflexivity.
  exact (conj h1 (conj h2 (conj h3
    (operation_without_connection "GetClass" GetClass [VStr "CIM_Foo"] ∅
       _ _ _ Demo.unconnected h1 h2 h3)))).
Defined.

(** [EnumerateInstances("CIM_Foo", LocalOnly=True)]: the option goes by the
    name [lo] here. *)
Lemma operation_refuses_surplus_witness :
  ("EnumerateInstances", EnumerateInstances) ∈ operations (World := nat) ∧
  "EnumerateInstances" ≠ "InvokeMethod" ∧
  (length (f_params (EnumerateInstances (World := nat)))
     < length [VStr "CIM_Foo"] ∨
   (∃ k, is_Some (({[ "LocalOnly" := VBool true ]} : Kwargs) !! k) ∧
         k ∉ p_name <$> f_params (EnumerateInstances (World := nat)))) ∧
  ∃ msg,
    call_function EnumerateInstances [VStr "CIM_Foo"]
      {[ "LocalOnly" := VBool true ]} Demo.connected =
      (Raise (TypeError msg), Demo.connected).
Proof.
  assert (h1 : ("EnumerateInstances", EnumerateInstances)
                 ∈ operations (World := nat)) by repeat constructor.
  assert (h2 : "EnumerateInstances" ≠ "InvokeMethod") by discriminate.
  assert (h3 : length (f_params (EnumerateInstances (World := nat)))
                 < length [VStr "CIM_Foo"] ∨
               (∃ k, is_Some (({[ "LocalOnly" := VBool true ]} : Kwargs) !! k)
                     ∧ k ∉ p_name <$>
                             f_params (EnumerateInstances (World := nat)))).
  { right. exists "LocalOnly". split; [by eexists|].
    apply (bool_decide_unpack _). vm_compute. exact I. }
  exact (conj h1 (conj h2 (conj h3
    (operation_refuses_surplus "EnumerateInstances" EnumerateInstances
       [VStr "CIM_Foo"] {[ "LocalOnly" := VBool true ]} Demo.connected
       h1 h2 h3)))).
Defined.

(** [GetInstance()] without the instance path. *)
Lemma operation_requires_argument_witness :
  ("GetInstance", GetInstance) ∈ operations (World := nat) ∧
  f_params (GetInstance (World := nat)) !! 0 = Some (pos "ip") ∧
  p_default (pos "ip") = None ∧
  ([] : list PyVal) !! 0 = None ∧
  (∅ : Kwargs) !! p_name (pos "ip") = None ∧
  ∃ msg,
    call_function GetInstance [] ∅ Demo.connected =
      (Raise (TypeError msg), Demo.connected).
Proof.
  assert (h1 : ("GetInstance", GetInstance) ∈ operations (World := nat))
    by repeat constructor.
  assert (h2 : f_params (GetInstance (World := nat)) !! 0 = Some (pos "ip"))
    by reflexivity.
  assert (h3 : p_default (pos "ip") = None) by reflexivity.
  assert (h4 : ([] : list PyVal) !! 0 = None) by reflexivity.
  assert (h5 : (∅ : Kwargs) !! p_name (pos "ip") = None) by reflexivity.
  exact (conj h1 (conj h2 (conj h3 (conj h4 (conj h5
    (operation_requires_argument "GetInstance" GetInstance 0 (pos "ip")
       [] ∅ Demo.connected h1 h2 h3 h4 h5)))))).
Defined.

(** [EnumerateInstances("CIM_Foo", lo=None)] and
    [EnumerateInstances("CIM_Foo")] *)
Lemma omitted_parameter_is_None_witness :
  ("EnumerateInstances", EnumerateInstances) ∈ operations (World := nat) ∧
  f_params (EnumerateInstances (World := nat)) !! 2 = Some ("lo" =: VNone) ∧
  p_default ("lo" =: VNone) = Some VNone ∧
  [VStr "CIM_Foo"] !! 2 = None ∧
  (∅ : Kwargs) !! p_name ("lo" =: VNone) = None ∧
  call_function EnumerateInstances [VStr "CIM_Foo"]
    (<[p_name ("lo" =: VNone) := VNone]> ∅) Demo.connected =
  call_function EnumerateInstances [VStr "CIM_Foo"] ∅ Demo.connected.
Proof.
  assert (h1 : ("EnumerateInstances", EnumerateInstances)
                 ∈ operations (World := nat)) by repeat constructor.
  assert (h2 : f_params (EnumerateInstances (World := nat)) !! 2
               = Some ("lo" =: VNone)) by reflexivity.
  assert (h3 : p_default ("lo" =: VNone) = Some VNone) by reflexivity.
  assert (h4 : [VStr "CIM_Foo"] !! 2 = None) by reflexivity.
  assert (h5 : (∅ : Kwargs) !! p_name ("lo" =: VNone) = None)
    by reflexivity.
  exact (conj h1 (conj h2 (conj h3 (conj h4 (conj h5
    (omitted_parameter_is_None "EnumerateInstances" EnumerateInstances 2
       ("lo" =: VNone) VNone [VStr "CIM_Foo"] ∅ Demo.connected
       h1 h2 h3 h4 h5)))))).
Defined.

(** [EnumerateInstances("CIM_Foo", "root/cimv2")] and
    [EnumerateInstances("CIM_Foo", ns="root/cimv2")] *)
Lemma last_positional_by_keyword_witness :
  ("EnumerateInstances", EnumerateInstances) ∈ operations (World := nat) ∧
  f_params (EnumerateInstances (World := nat)) !! length [VStr "CIM_Foo"]
    = Some ("ns" =: VNone) ∧
  (∅ : Kwargs) !! p_name ("ns" =: VNone) = None ∧
  call_function EnumerateInstances ([VStr "CIM_Foo"] ++ [VStr "root/cimv2"])
    ∅ Demo.connected =
  call_function EnumerateInstances [VStr "CIM_Foo"]
    (<[p_name ("ns" =: VNone) := VStr "root/cimv2"]> ∅) Demo.connected.
Proof.
  assert (h1 : ("EnumerateInstances", EnumerateInstances)
                 ∈ operations (World := nat)) by repeat constructor.
  assert (h2 : f_params (EnumerateInstances (World := nat))
                 !! length [VStr "CIM_Foo"] = Some ("ns" =: VNone))
    by reflexivity.
  assert (h3 : (∅ : Kwargs) !! p_name ("ns" =: VNone) = None)
    by reflexivity.
  exact (conj h1 (conj h2 (conj h3
    (last_positional_by_keyword "EnumerateInstances" EnumerateInstances
       ("ns" =: VNone) [VStr "CIM_Foo"] (VStr "root/cimv2") ∅
       Demo.connected h1 h2 h3)))).
Defined.

(** [InvokeMethod("RequestStateChange", path, RequestedState=2)] *)
Lemma InvokeMethod_forwards_all_witness :
  ({[ "RequestedState" := VInt 2 ]} : Kwargs) !! "mn" = None ∧
  ({[ "RequestedState" := VInt 2 ]} : Kwargs) !! "op" = None ∧
  call_function InvokeMethod [VStr "RequestStateChange"; VStr "path"]
    {[ "RequestedState" := VInt 2 ]} Demo.connected =
    CONN_call "InvokeMethod" [VStr "RequestStateChange"; VStr "path"]
      {[ "RequestedState" := VInt 2 ]} Demo.connected.
Proof.
  assert (h1 : ({[ "RequestedState" := VInt 2 ]} : Kwargs) !! "mn" = None)
    by reflexivity.
  assert (h2 : ({[ "RequestedState" := VInt 2 ]} : Kwargs) !! "op" = None)
    by reflexivity.
  exact (conj h1 (conj h2
    (InvokeMethod_forwards_all (VStr "RequestStateChange") (VStr "path") []
       {[ "RequestedState" := VInt 2 ]} Demo.connected h1 h2))).
Defined.

(** [InvokeMethod("Transfer", path, op=1)] *)
Lemma InvokeMethod_refuses_mn_op_keyword_witness :
  (is_Some (({[ "op" := VInt 1 ]} : Kwargs) !! "mn") ∨
   is_Some (({[ "op" := VInt 1 ]} : Kwargs) !! "op")) ∧
  ∃ msg,
    call_function InvokeMethod [VStr "Transfer"; VStr "path"]
      {[ "op" := VInt 1 ]} Demo.connected =
      (Raise (TypeError msg), Demo.connected).
Proof.
  assert (h1 : is_Some (({[ "op" := VInt 1 ]} : Kwargs) !! "mn") ∨
               is_Some (({[ "op" := VInt 1 ]} : Kwargs) !! "op")).
  { right. exists (VInt 1). reflexivity. }
  exact (conj h1
    (InvokeMethod_refuses_mn_op_keyword (VStr "Transfer") (VStr "path") []
       {[ "op" := VInt 1 ]} Demo.connected h1)).
Defined.

(** [CreateInstance(inst)], then [GetInstance(path)] *)
Lemma two_operations_in_sequence_witness :
  ("CreateInstance", CreateInstance) ∈ operations (World := nat) ∧
  ("GetInstance", GetInstance) ∈ operations (World := nat) ∧
  CONN Demo.connected = Some Demo.sheldon ∧
  bind_arguments (f_params (CreateInstance (World := nat)))
    (variadic (CreateInstance (World := nat))) [VStr "inst"] ∅
    = Ok ([VStr "inst"], [], ∅) ∧
  bind_arguments (f_params (GetInstance (World := nat)))
    (variadic (GetInstance (World := nat))) [VStr "path"] ∅
    = Ok ([VStr "path"; VNone; VNone; VNone; VNone], [], ∅) ∧
  ∃ cl1 cl2,
    let out1 := conn_method Demo.sheldon cl1 (world Demo.connected) in
    let out2 := conn_method Demo.sheldon cl2 out1.2 in
    (do! call_function CreateInstance [VStr "inst"] ∅ in
     call_function GetInstance [VStr "path"] ∅) Demo.connected =
      match out1.1 with
      | Raise e =>
          (Raise e,
           MkState (Some Demo.sheldon) out1.2
             (trace Demo.connected ++ [EvCall Demo.sheldon cl1]))
      | Ok _ =>
          (match out2.1 with
           | Ok v =>
               Ok (if bool_decide ("GetInstance" ∈ returns_nothing)
                   then VNone else v)
           | Raise e => Raise e
           end,
           MkState (Some Demo.sheldon) out2.2
             (trace Demo.connected ++
                [EvCall Demo.sheldon cl1; EvCall Demo.sheldon cl2]))
      end.
Proof.
  assert (h1 : ("CreateInstance", CreateInstance) ∈ operations (World := nat))
    by repeat constructor.
  assert (h2 : ("GetInstance", GetInstance) ∈ operations (World := nat))
    by repeat constructor.
  assert (h3 : CONN Demo.connected = Some Demo.sheldon) by reflexivity.
  assert (h4 : bind_arguments (f_params (CreateInstance (World := nat)))
                 (variadic (CreateInstance (World := nat))) [VStr "inst"] ∅
               = Ok ([VStr "inst"], [], ∅)) by reflexivity.
  assert (h5 : bind_arguments (f_params (GetInstance (World := nat)))
                 (variadic (GetInstance (World := nat))) [VStr "path"] ∅
               = Ok ([VStr "path"; VNone; VNone; VNone; VNone], [], ∅))
    by reflexivity.
  exact (conj h1 (conj h2 (conj h3 (conj h4 (conj h5
    (two_operations_in_sequence
       "CreateInstance" CreateInstance [VStr "inst"] ∅ _
       "GetInstance" GetInstance [VStr "path"] ∅ _
       Demo.connected Demo.sheldon h1 h2 h3 h4 h5)))))).
Defined.

(** [GetInstance(path, iq=False)] leaves [lo], its second parameter, out. *)
Lemma unset_parameter_forwards_None_witness :
  ("GetInstance", GetInstance) ∈ operations (World := nat) ∧
  ("GetInstance",
   [ToPositional; ToKeyword "LocalOnly"; ToKeyword "IncludeQualifiers";
    ToKeyword "IncludeClassOrigin"; ToKeyword "PropertyList"])
    ∈ documented_route ∧
  f_params (GetInstance (World := nat)) !! 1 = Some ("lo" =: VNone) ∧
  ("GetInstance", p_name ("lo" =: VNone)) ≠ ("EnumerateClassNames", "cn") ∧
  [VStr "path"] !! 1 = None ∧
  ({[ "iq" := VBool false ]} : Kwargs) !! p_name ("lo" =: VNone) = None ∧
  CONN Demo.connected = Some Demo.sheldon ∧
  bind_arguments (f_params (GetInstance (World := nat)))
    (variadic (GetInstance (World := nat))) [VStr "path"]
    {[ "iq" := VBool false ]}
    = Ok ([VStr "path"; VNone; VBool false; VNone; VNone], [], ∅) ∧
  p_default ("lo" =: VNone) = Some VNone ∧
  ∃ cl,
    trace (call_function GetInstance [VStr "path"]
             {[ "iq" := VBool false ]} Demo.connected).2 =
      trace Demo.connected ++ [EvCall Demo.sheldon cl] ∧
    place [ToPositional; ToKeyword "LocalOnly"; ToKeyword "IncludeQualifiers";
           ToKeyword "IncludeClassOrigin"; ToKeyword "PropertyList"] 1 cl
      = Some VNone.
Proof.
  assert (h1 : ("GetInstance", GetInstance) ∈ operations (World := nat))
    by repeat constructor.
  assert (h2 : ("GetInstance",
                [ToPositional; ToKeyword "LocalOnly";
                 ToKeyword "IncludeQualifiers";
                 ToKeyword "IncludeClassOrigin"; ToKeyword "PropertyList"])
                 ∈ documented_route) by repeat constructor.
  assert (h3 : f_params (GetInstance (World := nat)) !! 1
               = Some ("lo" =: VNone)) by reflexivity.
  assert (h4 : ("GetInstance", p_name ("lo" =: VNone))
               ≠ ("EnumerateClassNames", "cn")) by discriminate.
  assert (h5 : [VStr "path"] !! 1 = None) by reflexivity.
  assert (h6 : ({[ "iq" := VBool false ]} : Kwargs) !! p_name ("lo" =: VNone)
               = None) by reflexivity.
  assert (h7 : CONN Demo.connected = Some Demo.sheldon) by reflexivity.
  assert (h8 : bind_arguments (f_params (GetInstance (World := nat)))
                 (variadic (GetInstance (World := nat))) [VStr "path"]
                 {[ "iq" := VBool false ]}
               = Ok ([VStr "path"; VNone; VBool false; VNone; VNone], [], ∅))
    by reflexivity.
  exact (conj h1 (conj h2 (conj h3 (conj h4 (conj h5 (conj h6 (conj h7
    (conj h8
      (unset_parameter_forwards_None "GetInstance" GetInstance _ 1
         ("lo" =: VNone) [VStr "path"] {[ "iq" := VBool false ]}
         _ _ _ Demo.connected Demo.sheldon
         h1 h2 h3 h4 h5 h6 h7 h8))))))))).
Defined.

(** [wbemcli localhost --port 15989 -n root/cimv2 -u sheldon] *)
Lemma connection_attributes_witness :
  _remote_connection "localhost" Demo.opts_sheldon Demo.unconnected =
    (Ok (Demo.sheldon,
         MkOptions false (Some 15989%Z) (Some "sheldon") (Some "penny42")
           "root/cimv2"),
     MkState (Some Demo.sheldon) 1
       [EvGetpass "Enter password for sheldon: "]) ∧
  debug Demo.sheldon = true ∧
  default_namespace Demo.sheldon = namespace Demo.opts_sheldon ∧
  no_ssl (MkOptions false (Some 15989%Z) (Some "sheldon") (Some "penny42")
            "root/cimv2") = no_ssl Demo.opts_sheldon ∧
  port (MkOptions false (Some 15989%Z) (Some "sheldon") (Some "penny42")
          "root/cimv2") = port Demo.opts_sheldon ∧
  namespace (MkOptions false (Some 15989%Z) (Some "sheldon") (Some "penny42")
               "root/cimv2") = namespace Demo.opts_sheldon.
Proof.
  assert (h1 : _remote_connection "localhost" Demo.opts_sheldon
                 Demo.unconnected =
               (Ok (Demo.sheldon,
                    MkOptions false (Some 15989%Z) (Some "sheldon")
                      (Some "penny42") "root/cimv2"),
                MkState (Some Demo.sheldon) 1
                  [EvGetpass "Enter password for sheldon: "]))
    by reflexivity.
  exact (conj h1
    (connection_attributes "localhost" Demo.opts_sheldon Demo.unconnected
       _ _ _ h1)).
Defined.

(** [wbemcli host] *)
Lemma connection_without_prompt_witness :
  "host" ≠ "" ∧
  (user Demo.opts_default = None ∨ is_Some (password Demo.opts_default)) ∧
  ∃ c,
    _remote_connection "host" Demo.opts_default Demo.unconnected =
      (Ok (c, Demo.opts_default),
       MkState (Some c) (world Demo.unconnected) (trace Demo.unconnected)).
Proof.
  assert (h1 : "host" ≠ "") by discriminate.
  assert (h2 : user Demo.opts_default = None ∨
               is_Some (password Demo.opts_default))
    by (left; reflexivity).
  exact (conj h1 (conj h2
    (connection_without_prompt "host" Demo.opts_default Demo.unconnected
       h1 h2))).
Defined.

(** A second [_remote_connection] at a closed terminal: the connection of
    before stays. *)
Lemma failed_connection_keeps_CONN_witness :
  _remote_connection (H := Demo.external_closed) "otherhost"
    Demo.opts_sheldon Demo.connected =
    (Raise (PyError "EOFError" "EOF when reading a line"),
     MkState (Some Demo.sheldon) 1
       [EvGetpass "Enter password for sheldon: "]) ∧
  CONN (MkState (Some Demo.sheldon) 1
          [EvGetpass "Enter password for sheldon: "]) = CONN Demo.connected.
Proof.
  assert (h1 : _remote_connection (H := Demo.external_closed) "otherhost"
                 Demo.opts_sheldon Demo.connected =
               (Raise (PyError "EOFError" "EOF when reading a line"),
                MkState (Some Demo.sheldon) 1
                  [EvGetpass "Enter password for sheldon: "]))
    by reflexivity.
  exact (conj h1
    (failed_connection_keeps_CONN (H := Demo.external_closed) "otherhost"
       Demo.opts_sheldon Demo.connected _ _ h1)).
Defined.

(** A password without a user: the text says [as None]. *)
Lemma connection_info_after_connecting_witness :
  _remote_connection "host"
    (MkOptions false None None (Some "penny42") "root/cimv2")
    Demo.unconnected =
    (Ok (MkConn "https://host" (Some (None, Some "penny42")) "root/cimv2"
           true,
         MkOptions false None None (Some "penny42") "root/cimv2"),
     MkState
       (Some (MkConn "https://host" (Some (None, Some "penny42"))
                "root/cimv2" true)) 0 []) ∧
  connection_url "host"
    (MkOptions false None None (Some "penny42") "root/cimv2")
    = Ok "https://host" ∧
  _get_connection_info
    (MkState
       (Some (MkConn "https://host" (Some (None, Some "penny42"))
                "root/cimv2" true)) 0 []) =
    (Ok "Connected to https://host as None, default namespace root/cimv2",
     MkState
       (Some (MkConn "https://host" (Some (None, Some "penny42"))
                "root/cimv2" true)) 0 []).
Proof.
  assert (h1 : _remote_connection "host"
                 (MkOptions false None None (Some "penny42") "root/cimv2")
                 Demo.unconnected =
               (Ok (MkConn "https://host" (Some (None, Some "penny42"))
                      "root/cimv2" true,
                    MkOptions false None None (Some "penny42") "root/cimv2"),
                MkState
                  (Some (MkConn "https://host" (Some (None, Some "penny42"))
                           "root/cimv2" true)) 0 []))
    by reflexivity.
  assert (h2 : connection_url "host"
                 (MkOptions false None None (Some "penny42") "root/cimv2")
               = Ok "https://host") by reflexivity.
  exact (conj h1 (conj h2
    (connection_info_after_connecting "host"
       (MkOptions false None None (Some "penny42") "root/cimv2")
       Demo.unconnected _ _ _ _ h1 h2))).
Defined.

(** Connecting as in the usage text, then [GetClass("CIM_Foo")] *)
Lemma operation_after_connecting_witness :
  _remote_connection "localhost" Demo.opts_sheldon Demo.unconnected =
    (Ok (Demo.sheldon,
         MkOptions false (Some 15989%Z) (Some "sheldon") (Some "penny42")
           "root/cimv2"),
     MkState (Some Demo.sheldon) 1
       [EvGetpass "Enter password for sheldon: "]) ∧
  ("GetClass", GetClass) ∈ operations (World := nat) ∧
  bind_arguments (f_params (GetClass (World := nat)))
    (variadic (GetClass (World := nat))) [VStr "CIM_Foo"] ∅
    = Ok ([VStr "CIM_Foo"; VNone; VNone; VNone; VNone; VNone], [], ∅) ∧
  ∃ cl,
    (do! _remote_connection "localhost" Demo.opts_sheldon in
     call_function GetClass [VStr "CIM_Foo"] ∅) Demo.unconnected =
      (match (conn_method Demo.sheldon cl 1).1 with
       | Ok v =>
           Ok (if bool_decide ("GetClass" ∈ returns_nothing) then VNone
               else v)
       | Raise e => Raise e
       end,
       MkState (Some Demo.sheldon) (conn_method Demo.sheldon cl 1).2
         ([EvGetpass "Enter password for sheldon: "]
            ++ [EvCall Demo.sheldon cl])).
Proof.
  assert (h1 : _remote_connection "localhost" Demo.opts_sheldon
                 Demo.unconnected =
               (Ok (Demo.sheldon,
                    MkOptions false (Some 15989%Z) (Some "sheldon")
                      (Some "penny42") "root/cimv2"),
                MkState (Some Demo.sheldon) 1
                  [EvGetpass "Enter password for sheldon: "]))
    by reflexivity.
  assert (h2 : ("GetClass", GetClass) ∈ operations (World := nat))
    by repeat constructor.
  assert (h3 : bind_arguments (f_params (GetClass (World := nat)))
                 (variadic (GetClass (World := nat))) [VStr "CIM_Foo"] ∅
               = Ok ([VStr "CIM_Foo"; VNone; VNone; VNone; VNone; VNone],
                     [], ∅)) by reflexivity.
  exact (conj h1 (conj h2 (conj h3
    (operation_after_connecting "localhost" Demo.opts_sheldon
       Demo.unconnected _ _ _ "GetClass" GetClass [VStr "CIM_Foo"] ∅ _
       h1 h2 h3)))).
Defined.

(** A socket path with [--port] and [--no-ssl] *)
Lemma connection_url_local_witness :
  String.get 0 "/var/run/tog-pegasus/cimxml.socket" = Some "/"%char ∧
  connection_url "/var/run/tog-pegasus/cimxml.socket"
    (MkOptions true (Some 5988%Z) None None "root/cimv2")
    = Ok "/var/run/tog-pegasus/cimxml.socket".
Proof.
  assert (h1 : String.get 0 "/var/run/tog-pegasus/cimxml.socket"
               = Some "/"%char) by reflexivity.
  exact (conj h1
    (connection_url_local "/var/run/tog-pegasus/cimxml.socket"
       (MkOptions true (Some 5988%Z) None None "root/cimv2") h1)).
Defined.

(** Without [HOME], the variable [LANG] makes no difference. *)
Lemma history_file_environment_witness :
  ({[ "HOMEPATH" := "/Users/sheldon"; "LANG" := "C" ]} : gmap string string)
    !! "HOME" =
  ({[ "HOMEPATH" := "/Users/sheldon" ]} : gmap string string) !! "HOME" ∧
  (({[ "HOMEPATH" := "/Users/sheldon"; "LANG" := "C" ]} : gmap string string)
     !! "HOME" = None →
   ({[ "HOMEPATH" := "/Users/sheldon"; "LANG" := "C" ]} : gmap string string)
     !! "HOMEPATH" =
   ({[ "HOMEPATH" := "/Users/sheldon" ]} : gmap string string)
     !! "HOMEPATH") ∧
  history_file {[ "HOMEPATH" := "/Users/sheldon"; "LANG" := "C" ]} =
  history_file {[ "HOMEPATH" := "/Users/sheldon" ]}.
Proof.
  assert (h1 : ({[ "HOMEPATH" := "/Users/sheldon"; "LANG" := "C" ]}
                  : gmap string string) !! "HOME" =
               ({[ "HOMEPATH" := "/Users/sheldon" ]} : gmap string string)
                 !! "HOME") by reflexivity.
  assert (h2 : ({[ "HOMEPATH" := "/Users/sheldon"; "LANG" := "C" ]}
                  : gmap string string) !! "HOME" = None →
               ({[ "HOMEPATH" := "/Users/sheldon"; "LANG" := "C" ]}
                  : gmap string string) !! "HOMEPATH" =
               ({[ "HOMEPATH" := "/Users/sheldon" ]} : gmap string string)
                 !! "HOMEPATH") by (intros _; reflexivity).
  exact (conj h1 (conj h2
    (history_file_environment
       {[ "HOMEPATH" := "/Users/sheldon"; "LANG" := "C" ]}
       {[ "HOMEPATH" := "/Users/sheldon" ]} h1 h2))).
Defined.

(** The history file with [HOME], without it, and with an empty [HOME]. *)
Example history_files :
  history_file {[ "HOME" := "/home/sheldon"; "HOMEPATH" := "/Users/s" ]}
    = "/home/sheldon/.wbemcli_history" ∧
  history_file {[ "HOMEPATH" := "/Users/s" ]} = "/Users/s/.wbemcli_history" ∧
  history_file ∅ = "./.wbemcli_history" ∧
  history_file {[ "HOME" := "" ]} = "/.wbemcli_history".
Proof. repeat split; reflexivity. Qed.

(** The banner of the session of the usage text, line feeds written out;
    without a connection there is no banner. *)
Example banner_of_sheldon :
  (_get_banner "2.7.5" Demo.connected).1 =
    Ok (String "010"
          ("Python 2.7.5" +:+
           String "010"
             (String "010"
                ("Wbemcli interactive shell" +:+
                 String "010"
                   ("Connected to https://localhost:15989 as sheldon, default namespace root/cimv2"
                    +:+
                    String "010"
                      ("Press Ctrl-D to exit" +:+
                       String "010" "Type h() for help")))))) ∧
  (_get_banner "2.7.5" Demo.unconnected).1 =
    Raise (AttributeError "'NoneType' object has no attribute").
Proof. split; reflexivity. Qed.

(** [wbemcli localhost --port 15989 -n root/cimv2 -u sheldon] under
    Python 2.7.5 *)
Lemma banner_after_connecting_witness :
  _remote_connection "localhost" Demo.opts_sheldon Demo.unconnected =
    (Ok (Demo.sheldon,
         MkOptions false (Some 15989%Z) (Some "sheldon") (Some "penny42")
           "root/cimv2"),
     MkState (Some Demo.sheldon) 1
       [EvGetpass "Enter password for sheldon: "]) ∧
  connection_url "localhost" Demo.opts_sheldon
    = Ok "https://localhost:15989" ∧
  _get_banner "2.7.5"
    (MkState (Some Demo.sheldon) 1
       [EvGetpass "Enter password for sheldon: "]) =
    (Ok (String "010"
           ("Python 2.7.5" +:+
            String "010"
              (String "010"
                 ("Wbemcli interactive shell" +:+
                  String "010"
                    ("Connected to https://localhost:15989 as sheldon, default namespace root/cimv2"
                     +:+
                     String "010"
                       ("Press Ctrl-D to exit" +:+
                        String "010" "Type h() for help")))))),
     MkState (Some Demo.sheldon) 1
       [EvGetpass "Enter password for sheldon: "]).
Proof.
  assert (h1 : _remote_connection "localhost" Demo.opts_sheldon
                 Demo.unconnected =
               (Ok (Demo.sheldon,
                    MkOptions false (Some 15989%Z) (Some "sheldon")
                      (Some "penny42") "root/cimv2"),
                MkState (Some Demo.sheldon) 1
                  [EvGetpass "Enter password for sheldon: "]))
    by reflexivity.
  assert (h2 : connection_url "localhost" Demo.opts_sheldon
               = Ok "https://localhost:15989") by reflexivity.
  exact (conj h1 (conj h2
    (banner_after_connecting "localhost" Demo.opts_sheldon Demo.unconnected
       _ _ _ _ "2.7.5" h1 h2))).
Defined.

(** [wbemcli] without a server name, and with an empty one. *)
Example main_without_server :
  main_connect None Demo.opts_default Demo.unconnected =
    (Raise (PyError "SystemExit" "2"), Demo.unconnected) ∧
  main_connect (Some "") Demo.opts_default Demo.unconnected =
    (Raise (PyError "SystemExit" "2"), Demo.unconnected) ∧
  (main_connect (Some "host") Demo.opts_default Demo.unconnected).1 =
    Ok (MkConn "https://host" None "root/cimv2" true, Demo.opts_default).
Proof. repeat split; reflexivity. Qed.

(** ** The options of the operations *)

Section Options.

Context {World : Type} `{External World}.

Implicit Types (st : State World) (c : WBEMConnection) (cl : Call).
Implicit Types (f : PyFunction World).


End Options.


(** Unset and set to false are told apart in the request. *)
Example EnumerateInstances_di_False :
  requests
    (trace
       (call_function EnumerateInstances [VStr "CIM_Foo"]
          {[ "di" := VBool false ]} Demo.connected).2) =
    [MkCall "EnumerateInstances" [VStr "CIM_Foo"; VNone]
       {[ "LocalOnly" := VNone; "DeepInheritance" := VBool false;
          "IncludeQualifiers" := VNone; "IncludeClassOrigin" := VNone;
          "PropertyList" := VNone ]}].
Proof. reflexivity. Qed.
